(** * The birthday bot: a shallow embedding of [bot/birthday_bot.py] and [main.py]

    The bot reads two JSON files (people with birthdays, message templates),
    keeps the people whose birthday falls on the reference date, renders one
    randomly drawn template per celebrant and posts each text to a chat.

    Python text is modelled by [string]; every [ascii] stands for one code
    point below 256.  Python integers are [Z].  Exceptions are values of
    [exn]; a computation that may raise returns a [result].  The effects of a
    run (file reads, environment reads, random draws, HTTP posts) are threaded
    through an explicit state that also records them in order. *)

From Stdlib Require Import List String Ascii ZArith NArith Lia Bool.
Import ListNotations.

Local Open Scope string_scope.
Local Open Scope list_scope.

Set Warnings "-register-all".

(** ** Values read from JSON *)

(** What [json.load] hands back: [None], [bool], [int], [float], [str],
    [list] and [dict].  A float keeps its literal; the bot never computes
    with one.  A dict is an association list read with [dict_get]. *)
Inductive json : Type :=
| JNull
| JBool (b : bool)
| JInt (z : Z)
| JFloat (literal : string)
| JStr (s : string)
| JArr (items : list json)
| JObj (members : list (string * json)).

Fixpoint dict_get (key : string) (members : list (string * json)) : option json :=
  match members with
  | [] => None
  | (k, v) :: rest => if String.eqb k key then Some v else dict_get key rest
  end.

(** ** Exceptions and results *)

(** The two ways the module raises its base class [BirthdayBotError]
    directly: a birthday entry without a required field (the message quotes
    the entry and the field), and an empty template list. *)
Inductive bot_failure : Type :=
| MissingField (entry : json) (field : string)
| NoTemplates.

Inductive exn : Type :=
| BirthdayBotError (why : bot_failure)
| MissingEnvironmentVariableError (variable : string)
| TelegramApiError (status_code : Z) (response_text : string)
| KeyError (key : string)
| IndexError
| ValueError
| TypeError
| AttributeError
| OSError
| RequestException
| OutsideModel.
(** [OutsideModel] is not a Python exception: [str.format] answers it for a
    replacement field that carries a conversion, a format specification or an
    attribute or index access, which this development does not model. *)

(** [isinstance(e, BirthdayBotError)]: the base class and its two subclasses. *)
Definition is_BirthdayBotError (e : exn) : bool :=
  match e with
  | BirthdayBotError _ | MissingEnvironmentVariableError _ | TelegramApiError _ _ => true
  | _ => false
  end.

Inductive result (A : Type) : Type :=
| Ok (a : A)
| Raise (e : exn).
Arguments Ok {A} a.
Arguments Raise {A} e.

Definition map_ok {A B : Type} (f : A -> B) (r : result A) : result B :=
  match r with
  | Ok a => Ok (f a)
  | Raise e => Raise e
  end.

(** ** Python text *)

Module PyStr.

(** [str.isspace] on one code point below 256. *)
Definition isspace (c : ascii) : bool :=
  let n := N_of_ascii c in
  (((9 <=? n) && (n <=? 13)) || ((28 <=? n) && (n <=? 32))
   || (n =? 133) || (n =? 160))%N.

Definition isdecimal (c : ascii) : bool :=
  let n := N_of_ascii c in ((48 <=? n) && (n <=? 57))%N.

Definition digit (c : ascii) : Z := Z.of_N (N_of_ascii c) - 48.

Fixpoint lstrip (s : string) : string :=
  match s with
  | EmptyString => EmptyString
  | String c r => if isspace c then lstrip r else s
  end.

Fixpoint rstrip (s : string) : string :=
  match s with
  | EmptyString => EmptyString
  | String c r =>
      match rstrip r with
      | EmptyString => if isspace c then EmptyString else String c EmptyString
      | r' => String c r'
      end
  end.

(** [s.strip()] *)
Definition strip (s : string) : string := rstrip (lstrip s).

(** [s.startswith(p)] *)
Fixpoint startswith (p s : string) : bool :=
  match p, s with
  | EmptyString, _ => true
  | String _ _, EmptyString => false
  | String a p', String b s' => Ascii.eqb a b && startswith p' s'
  end.

(** Truth value of a string: non-empty. *)
Definition truthy (s : string) : bool :=
  match s with
  | EmptyString => false
  | String _ _ => true
  end.


Fixpoint decimal_value (acc : Z) (s : string) : Z :=
  match s with
  | EmptyString => acc
  | String c r => decimal_value (10 * acc + digit c) r
  end.

(** *** [str.format] with keyword arguments only

    The scanner of CPython's [MarkupIterator]: literal text, the escapes
    [{{] and [}}], and replacement fields [{field}].  It reads the text
    once, left to right, and raises at the first defect it meets. *)

Inductive scan : Type :=
| Text                      (* in literal text *)
| Open                      (* just read a single opening brace *)
| Close                     (* just read a single closing brace *)
| Field (name : string).    (* inside a field, [name] read so far *)

Definition PY_SSIZE_T_MAX : Z := 9223372036854775807.

(** How a field name reads as an argument index, scanned from the left as
    CPython's [get_integer] does: a character that is no decimal digit makes
    it a keyword, and the overflow of the index is met where it happens, so
    before any later character is looked at. *)
Inductive field_index : Type :=
| Index (i : Z)
| Keyword
| TooManyDigits.

Fixpoint get_integer (acc : Z) (s : string) : field_index :=
  match s with
  | EmptyString => Index acc
  | String c r =>
      if isdecimal c then
        if ((PY_SSIZE_T_MAX - digit c) / 10 <? acc)%Z then TooManyDigits
        else get_integer (10 * acc + digit c) r
      else Keyword
  end.

(** The object a field names.  No positional argument is ever passed, so an
    empty (automatically numbered) or numeric field name is out of range. *)
Definition get_field (kwargs : string -> option string) (name : string)
  : result string :=
  match get_integer 0 name with
  | Index _ => Raise IndexError
  | TooManyDigits => Raise ValueError   (* Too many decimal digits in format string *)
  | Keyword =>
      match kwargs name with
      | Some v => Ok v
      | None => Raise (KeyError name)
      end
  end.

Definition at_end (sc : scan) : result string :=
  match sc with
  | Text => Ok EmptyString
  | Open => Raise ValueError      (* Single '{' encountered in format string *)
  | Close => Raise ValueError     (* Single '}' encountered in format string *)
  | Field _ => Raise ValueError   (* expected '}' before end of string *)
  end.

Definition in_field (kwargs : string -> option string) (name : string)
           (c : ascii) (rest : scan -> result string) : result string :=
  if Ascii.eqb c "}" then
    match get_field kwargs name with
    | Ok v => map_ok (String.append v) (rest Text)
    | Raise e => Raise e
    end
  else if Ascii.eqb c "{" then Raise ValueError (* unexpected '{' in field name *)
  else if Ascii.eqb c "!" || Ascii.eqb c ":" || Ascii.eqb c "[" || Ascii.eqb c "."
  then Raise OutsideModel
  else rest (Field (name ++ String c EmptyString)).

Definition step (kwargs : string -> option string) (sc : scan) (c : ascii)
           (rest : scan -> result string) : result string :=
  match sc with
  | Text =>
      if Ascii.eqb c "{" then rest Open
      else if Ascii.eqb c "}" then rest Close
      else map_ok (String c) (rest Text)
  | Open =>
      if Ascii.eqb c "{" then map_ok (String "{") (rest Text)
      else in_field kwargs EmptyString c rest
  | Close =>
      if Ascii.eqb c "}" then map_ok (String "}") (rest Text)
      else Raise ValueError       (* Single '}' encountered in format string *)
  | Field name => in_field kwargs name c rest
  end.

Fixpoint format_from (kwargs : string -> option string) (sc : scan)
         (s : string) : result string :=
  match s with
  | EmptyString => at_end sc
  | String c r => step kwargs sc c (fun sc' => format_from kwargs sc' r)
  end.

(** [s.format] called with keyword arguments [kwargs] *)
Definition format (s : string) (kwargs : string -> option string)
  : result string :=
  format_from kwargs Text s.

End PyStr.

(** ** Calendar dates and [datetime.strptime(_, "%Y-%m-%d").date()] *)

Module PyDate.

Record date : Type := mkdate { year : Z; month : Z; day : Z }.

Local Open Scope Z_scope.

Definition is_leap (y : Z) : bool :=
  (y mod 4 =? 0) && (negb (y mod 100 =? 0) || (y mod 400 =? 0)).

Definition days_in_month (y m : Z) : Z :=
  if m =? 2 then (if is_leap y then 29 else 28)
  else if (m =? 4) || (m =? 6) || (m =? 9) || (m =? 11) then 30
  else 31.

(** One character of a class given by its bounds. *)
Definition in_range (lo hi c : ascii) : bool :=
  ((N_of_ascii lo <=? N_of_ascii c) && (N_of_ascii c <=? N_of_ascii hi))%N.

(** A regular-expression piece reads a value off the front of the text. *)
Definition piece : Type := string -> option (Z * string).

Definition two_chars (lo1 hi1 lo2 hi2 : ascii) : piece := fun s =>
  match s with
  | String a (String b r) =>
      if in_range lo1 hi1 a && in_range lo2 hi2 b
      then Some (10 * PyStr.digit a + PyStr.digit b, r) else None
  | _ => None
  end.

Definition one_char (lo hi : ascii) : piece := fun s =>
  match s with
  | String a r => if in_range lo hi a then Some (PyStr.digit a, r) else None
  | _ => None
  end.

Definition space_then (lo hi : ascii) : piece := fun s =>
  match s with
  | String a (String b r) =>
      if Ascii.eqb a " " && in_range lo hi b then Some (PyStr.digit b, r) else None
  | _ => None
  end.

(** [%Y]: four decimal digits. *)
Definition year_piece : piece := fun s =>
  match s with
  | String a (String b (String c (String d r))) =>
      if PyStr.isdecimal a && PyStr.isdecimal b && PyStr.isdecimal c && PyStr.isdecimal d
      then Some (PyStr.decimal_value 0 (String a (String b (String c (String d EmptyString)))), r)
      else None
  | _ => None
  end.

(** [%m]: 1[0-2]|0[1-9]|[1-9] *)
Definition month_alternatives : list piece :=
  [two_chars "1" "1" "0" "2"; two_chars "0" "0" "1" "9"; one_char "1" "9"].

(** [%d]: 3[0-1]|[1-2]\d|0[1-9]|[1-9]| [1-9] *)
Definition day_alternatives : list piece :=
  [two_chars "3" "3" "0" "1"; two_chars "1" "2" "0" "9"; two_chars "0" "0" "1" "9";
   one_char "1" "9"; space_then "1" "9"].

Definition dash (s : string) : option string :=
  match s with
  | String c r => if Ascii.eqb c "-" then Some r else None
  | EmptyString => None
  end.

(** Ordered alternation with backtracking: the first alternative after
    which the rest of the pattern, [k], also matches. *)
Fixpoint first_match {B : Type} (alts : list piece)
         (k : Z -> string -> option B) (s : string) : option B :=
  match alts with
  | [] => None
  | a :: more =>
      match (match a s with Some (v, r) => k v r | None => None end) with
      | Some b => Some b
      | None => first_match more k s
      end
  end.

(** [format_regex.match(data_string)]: the groups and the unread rest. *)
Definition match_format (s : string) : option (Z * Z * Z * string) :=
  match year_piece s with
  | Some (y, r1) =>
      match dash r1 with
      | Some r2 =>
          first_match month_alternatives
            (fun m r3 =>
               match dash r3 with
               | Some r4 => first_match day_alternatives (fun d r5 => Some (y, m, d, r5)) r4
               | None => None
               end) r2
      | None => None
      end
  | None => None
  end.

(** [datetime.strptime(s, "%Y-%m-%d").date()] for a [str] argument. *)
Definition strptime (s : string) : result date :=
  match match_format s with
  | None => Raise ValueError                 (* does not match format *)
  | Some (y, m, d, rest) =>
      if PyStr.truthy rest then Raise ValueError   (* unconverted data remains *)
      else if (y <? 1) || (days_in_month y m <? d) then Raise ValueError
      else Ok (mkdate y m d)
  end.

End PyDate.

(** ** Records of the bot *)

Record Person : Type := mkPerson {
  name : string;
  nickname : string;
  birthday : PyDate.date
}.

(** [Person.mention] *)
Definition mention (self : Person) : string :=
  let nick := PyStr.strip (nickname self) in
  if PyStr.startswith "@" nick then nick else "@" ++ nick.

Record MessageTemplate : Type := mkTemplate { text : string }.

(** The keyword arguments [name=..., mention=...] of the call to [format]. *)
Definition render_kwargs (person : Person) (key : string) : option string :=
  if String.eqb key "name" then Some (name person)
  else if String.eqb key "mention" then Some (mention person)
  else None.

(** [MessageTemplate.render] *)
Definition render (self : MessageTemplate) (person : Person) : result string :=
  PyStr.format (text self) (render_kwargs person).

(** ** Loading the people *)

(** [entry[key]] for a [str] key: only a dict can answer. *)
Definition subscript (entry : json) (key : string) : result json :=
  match entry with
  | JObj members =>
      match dict_get key members with
      | Some v => Ok v
      | None => Raise (KeyError key)
      end
  | _ => Raise TypeError
  end.

Definition strptime_date (v : json) : result PyDate.date :=
  match v with
  | JStr s => PyDate.strptime s
  | _ => Raise TypeError
  end.

(** [v.strip()]: only a [str] has the method. *)
Definition call_strip (v : json) : result string :=
  match v with
  | JStr s => Ok (PyStr.strip s)
  | _ => Raise AttributeError
  end.

Definition bind_result {A B : Type} (r : result A) (k : A -> result B) : result B :=
  match r with
  | Ok a => k a
  | Raise e => Raise e
  end.

Notation "'let*' x ':=' c 'in' k" := (bind_result c (fun x => k))
  (at level 10, x name, c at level 100, k at level 200).

(** The body of the [try] in [load_birthdays], in evaluation order. *)
Definition try_entry (entry : json) : result Person :=
  let* d := subscript entry "date" in
  let* birthday := strptime_date d in
  let* n := subscript entry "name" in
  let* n' := call_strip n in
  let* k := subscript entry "nickname" in
  let* k' := call_strip k in
  Ok (mkPerson n' k' birthday).

(** The [try] with its handler: a [KeyError] becomes the bot's own error,
    anything else passes through. *)
Definition load_entry (entry : json) : result Person :=
  match try_entry entry with
  | Raise (KeyError key) => Raise (BirthdayBotError (MissingField entry key))
  | r => r
  end.

(** The [for] loop of [load_birthdays], [people] being the list built so far. *)
Fixpoint load_entries (entries : list json) (people : list Person)
  : result (list Person) :=
  match entries with
  | [] => Ok people
  | entry :: rest =>
      match load_entry entry with
      | Ok p => load_entries rest (people ++ [p])
      | Raise e => Raise e
      end
  end.

(** What [for entry in entries] iterates over: the items of a list, the keys
    of a dict, the characters of a string; nothing else is iterable. *)
Fixpoint chars (s : string) : list json :=
  match s with
  | EmptyString => []
  | String c r => JStr (String c EmptyString) :: chars r
  end.

Definition iterate (v : json) : result (list json) :=
  match v with
  | JArr items => Ok items
  | JObj members => Ok (map (fun kv => JStr (fst kv)) members)
  | JStr s => Ok (chars s)
  | _ => Raise TypeError
  end.

(** ** Loading the templates *)

(** The comprehension of [load_message_templates]: the condition is evaluated
    first, then the element. *)
Fixpoint template_entries (entries : list json) : result (list MessageTemplate) :=
  match entries with
  | [] => Ok []
  | entry :: rest =>
      let* cond := call_strip entry in
      if PyStr.truthy cond then
        let* t := call_strip entry in
        map_ok (cons (mkTemplate t)) (template_entries rest)
      else template_entries rest
  end.

(** ** The world a run talks to, and the state it threads *)

Inductive file_content : Type :=
| NoSuchFile                 (* [path.open] raises [OSError] *)
| NotJson                    (* [json.load] raises a [ValueError] *)
| Json (v : json).

(** The call [requests.post(url, json=..., timeout=...)]. *)
Record request : Type := mkRequest {
  url : string;
  json_chat_id : string;
  json_text : string;
  json_parse_mode : string;
  timeout : Z
}.

Inductive event : Type :=
| ReadFile (path : string)          (* the file is opened for reading *)
| GetEnv (variable : string)
| Draw (below : nat) (picked : nat)
| Post (r : request).

(** What [requests.post] gives back: a response with its status code and
    body text, or an exception of the HTTP client when no response arrives. *)
Inductive post_outcome : Type :=
| Response (status_code : Z) (body : string)
| NoResponse.

(** The files and the environment are fixed for a run; the transport may
    answer according to everything that happened before the call. *)
Record World : Type := mkWorld {
  files : string -> file_content;
  environ : string -> option string;
  transport : list event -> request -> post_outcome;
  clock : PyDate.date
}.

(** The generator is the stream of its coming raw draws; the log holds the
    effects of the run so far, oldest first. *)
Record State : Type := mkState {
  rng : nat -> nat;
  log : list event
}.

Definition M (A : Type) : Type := State -> result A * State.

Definition ret {A : Type} (a : A) : M A := fun st => (Ok a, st).

Definition raise {A : Type} (e : exn) : M A := fun st => (Raise e, st).

Definition bind {A B : Type} (c : M A) (k : A -> M B) : M B := fun st =>
  match c st with
  | (Ok a, st') => k a st'
  | (Raise e, st') => (Raise e, st')
  end.

Definition lift {A : Type} (r : result A) : M A := fun st => (r, st).

Definition record (e : event) (st : State) : State :=
  mkState (rng st) (log st ++ [e]).

Notation "x <- c ;; k" := (bind c (fun x => k))
  (at level 61, c at next level, right associativity).

Section Bot.

Variable w : World.

(** [json.load] of the file at [path]. *)
Definition read_json (path : string) : M json := fun st =>
  match files w path with
  | NoSuchFile => (Raise OSError, record (ReadFile path) st)
  | NotJson => (Raise ValueError, record (ReadFile path) st)
  | Json v => (Ok v, record (ReadFile path) st)
  end.

Definition load_birthdays (path : string) : M (list Person) :=
  entries <- read_json path ;;
  items <- lift (iterate entries) ;;
  lift (load_entries items []).

Definition load_message_templates (path : string) : M (list MessageTemplate) :=
  entries <- read_json path ;;
  items <- lift (iterate entries) ;;
  lift (template_entries items).

(** [random.choice(seq)]: one draw below the length, on a non-empty
    sequence only. *)
Definition random_choice {A : Type} (seq : list A) : M A := fun st =>
  let i := Nat.modulo (rng st 0) (List.length seq) in
  match nth_error seq i with
  | Some x => (Ok x, mkState (fun k => rng st (S k)) (log st ++ [Draw (List.length seq) i]))
  | None => (Raise IndexError, st)
  end.

(** The [for] loop of [select_messages], [messages] being the list built so far. *)
Fixpoint select_loop (people : list Person) (templates : list MessageTemplate)
         (messages : list string) : M (list string) :=
  match people with
  | [] => ret messages
  | person :: rest =>
      template <- random_choice templates ;;
      message <- lift (render template person) ;;
      select_loop rest templates (messages ++ [message])
  end.

Definition select_messages (people : list Person)
           (templates : list MessageTemplate) : M (list string) :=
  match templates with
  | [] => raise (BirthdayBotError NoTemplates)
  | _ :: _ => select_loop people templates []
  end.

(** [os.getenv(name)] *)
Definition os_getenv (name : string) : M (option string) := fun st =>
  (Ok (environ w name), record (GetEnv name) st).

Definition _get_env_variable (name : string) : M string :=
  value <- os_getenv name ;;
  match value with
  | Some (String c r) => ret (String c r)
  | Some EmptyString | None => raise (MissingEnvironmentVariableError name)
  end.

Definition sendMessage (token chat_id text : string) : request :=
  mkRequest ("https://api.telegram.org/bot" ++ token ++ "/sendMessage")
            chat_id text "Markdown" 30.

(** [requests.post]: the call is logged, then the transport answers. *)
Definition requests_post (r : request) : M (Z * string) := fun st =>
  match transport w (log st) r with
  | Response status body => (Ok (status, body), record (Post r) st)
  | NoResponse => (Raise RequestException, record (Post r) st)
  end.

Definition send_telegram_message (token chat_id text : string) : M unit :=
  response <- requests_post (sendMessage token chat_id text) ;;
  if (fst response >=? 400)%Z
  then raise (TelegramApiError (fst response) (snd response))
  else ret tt.

(** The comprehension that keeps the people born on [today]'s month and day. *)
Fixpoint celebrants (people : list Person) (today : PyDate.date) : list Person :=
  match people with
  | [] => []
  | person :: rest =>
      if (PyDate.month (birthday person) =? PyDate.month today)%Z
         && (PyDate.day (birthday person) =? PyDate.day today)%Z
      then person :: celebrants rest today
      else celebrants rest today
  end.

(** The sending loop of [congratulate_today]. *)
Fixpoint send_all (token chat_id : string) (messages : list string) : M unit :=
  match messages with
  | [] => ret tt
  | message :: rest =>
      _ <- send_telegram_message token chat_id message ;;
      send_all token chat_id rest
  end.

Definition congratulate_today (today : option PyDate.date)
           (birthdays_path messages_path : string) : M (list string) :=
  let today := match today with Some d => d | None => clock w end in
  people <- load_birthdays birthdays_path ;;
  templates <- load_message_templates messages_path ;;
  match celebrants people today with
  | [] => ret []
  | (_ :: _) as celebrants =>
      token <- _get_env_variable "TELEGRAM_BOT_TOKEN" ;;
      chat_id <- _get_env_variable "TELEGRAM_CHAT_ID" ;;
      messages <- select_messages celebrants templates ;;
      _ <- send_all token chat_id messages ;;
      ret messages
  end.

End Bot.

(** ** The entry point, [main.py] *)

Definition DATA_DIR : string := "data".
Definition BIRTHDAYS_PATH : string := DATA_DIR ++ "/birthdays.json".
Definition MESSAGES_PATH : string := DATA_DIR ++ "/messages.json".

(** How the process ends: [main] returns after printing [stdout]; or it
    raises [SystemExit(str(exc))], and the interpreter prints the message of
    [exc] and exits; or another exception leaves [main] uncaught, and the
    interpreter prints its traceback and exits. *)
Inductive termination : Type :=
| Returned (stdout : list string)
| SystemExit (exc : exn)
| Uncaught (exc : exn).

Definition exit_status (t : termination) : Z :=
  match t with
  | Returned _ => 0
  | SystemExit _ => 1
  | Uncaught _ => 1
  end.

Definition main (w : World) (st : State) : termination * State :=
  match congratulate_today w None BIRTHDAYS_PATH MESSAGES_PATH st with
  | (Raise exc, st') =>
      if is_BirthdayBotError exc then (SystemExit exc, st') else (Uncaught exc, st')
  | (Ok [], st') => (Returned ["No birthdays today."], st')
  | (Ok ((_ :: _) as messages), st') =>
      (Returned ("Sent the following birthday messages:"
                   :: map (fun message => String.append "- " message) messages), st')
  end.

(** ** Definitions the statements use *)

(** The birthday of [person] falls on the month and day of [today]. *)
Definition born_on (today : PyDate.date) (person : Person) : Prop :=
  PyDate.month (birthday person) = PyDate.month today
  /\ PyDate.day (birthday person) = PyDate.day today.

Definition born_onb (today : PyDate.date) (person : Person) : bool :=
  ((PyDate.month (birthday person) =? PyDate.month today)
   && (PyDate.day (birthday person) =? PyDate.day today))%Z.

(** A template text written as pieces: literal text and the two placeholders. *)
Inductive piece : Type :=
| Literal (s : string)
| NamePlaceholder
| MentionPlaceholder.







(** The message at a celebrant's position is some template of the list rendered
    for that celebrant. *)
Definition rendering_of (templates : list MessageTemplate) (p : Person) (m : string) : Prop :=
  exists t, In t templates /\ render t p = Ok m.

(** The transport answers [r] with a status code below 400. *)
Definition accepts (w : World) (history : list event) (r : request) : bool :=
  match transport w history r with
  | Response status _ => (status <? 400)%Z
  | NoResponse => false
  end.

Definition posts (token chat_id : string) (messages : list string) : list event :=
  map (fun message => Post (sendMessage token chat_id message)) messages.

(** Every message of [messages], sent in order after [history], is accepted. *)
Fixpoint all_accepted (w : World) (token chat_id : string) (history : list event)
         (messages : list string) : bool :=
  match messages with
  | [] => true
  | message :: rest =>
      accepts w history (sendMessage token chat_id message)
      && all_accepted w token chat_id
           (history ++ [Post (sendMessage token chat_id message)]) rest
  end.

(** A transport failure: no response, or a response of status 400 or more. *)
Definition transport_failure (e : exn) : Prop :=
  e = RequestException
  \/ exists status body, e = TelegramApiError status body /\ (400 <= status)%Z.

Definition is_config_read (e : event) : bool :=
  match e with
  | GetEnv _ => true
  | _ => false
  end.

Definition is_post (e : event) : bool :=
  match e with
  | Post _ => true
  | _ => false
  end.

Definition is_draw (e : event) : bool :=
  match e with
  | Draw _ _ => true
  | _ => false
  end.

(** ** Sample data *)

Module Sample.

Definition march5 : PyDate.date := PyDate.mkdate 2024 3 5.

Definition ann : Person := mkPerson "Ann" "ann" (PyDate.mkdate 1990 3 5).
Definition bob : Person := mkPerson "Bob" "@bob" (PyDate.mkdate 1985 3 5).
Definition cid : Person := mkPerson "Cid" "cid" (PyDate.mkdate 2001 3 5).
Definition dan : Person := mkPerson "Dan" "dan" (PyDate.mkdate 1990 7 9).

Definition entry_of (n k d : string) : json :=
  JObj [("name", JStr n); ("nickname", JStr k); ("date", JStr d)].

Definition birthdays : json :=
  JArr [entry_of " Ann " "ann" "1990-03-05"; entry_of "Dan" "dan" "1990-07-09";
        entry_of "Bob" "@bob" "1985-03-05"; entry_of "Cid" "cid" "2001-03-05"].

Definition nobody_today : json :=
  JArr [entry_of "Dan" "dan" "1990-07-09"].

Definition templates : json :=
  JArr [JStr " Happy birthday, {mention}! "; JStr "   "; JStr "Hi {name} ({mention})"].

Definition disk (people : json) (path : string) : file_content :=
  if String.eqb path BIRTHDAYS_PATH then Json people
  else if String.eqb path MESSAGES_PATH then Json templates
  else NoSuchFile.

Definition configured (variable : string) : option string :=
  if String.eqb variable "TELEGRAM_BOT_TOKEN" then Some "T0KEN"
  else if String.eqb variable "TELEGRAM_CHAT_ID" then Some "-1001"
  else None.

Definition empty_token (variable : string) : option string :=
  if String.eqb variable "TELEGRAM_BOT_TOKEN" then Some ""
  else configured variable.

Definition always_ok (history : list event) (r : request) : post_outcome :=
  Response 200 "{}".

(** Accepts the first post and answers 401 from the second on. *)
Definition second_fails (history : list event) (r : request) : post_outcome :=
  match filter is_post history with
  | [] => Response 200 "{}"
  | _ :: _ => Response 401 "Unauthorized"
  end.

Definition happy : World := mkWorld (disk birthdays) configured always_ok march5.
Definition flaky : World := mkWorld (disk birthdays) configured second_fails march5.
Definition quiet : World := mkWorld (disk nobody_today) (fun _ => None) always_ok march5.
Definition unset : World := mkWorld (disk birthdays) empty_token always_ok march5.

(** The second entry has no nickname. *)
Definition incomplete : json :=
  JArr [entry_of "Ann" "ann" "1990-03-05";
        JObj [("name", JStr "Eve"); ("date", JStr "1999-12-31")];
        entry_of "Bob" "@bob" "1985-03-05"].

Definition broken : World := mkWorld (disk incomplete) configured always_ok march5.

(** A generator that draws 0, 1, 2, ... *)
Definition start : State := mkState (fun k => k) [].

End Sample.

(** ** Further definitions the statements use *)

(** The entry is an object whose three fields are strings, the date one that
    parses, and [p] is the person built from them. *)
Definition loads_as (entry : json) (p : Person) : Prop :=
  exists members n k s,
    entry = JObj members
    /\ dict_get "date" members = Some (JStr s)
    /\ dict_get "name" members = Some (JStr n)
    /\ dict_get "nickname" members = Some (JStr k)
    /\ PyDate.strptime s = Ok (birthday p)
    /\ name p = PyStr.strip n
    /\ nickname p = PyStr.strip k.

(** A date of the calendar, as every [datetime.date] is. *)
Definition valid_date (d : PyDate.date) : Prop :=
  (1 <= PyDate.year d <= 9999
   /\ 1 <= PyDate.month d <= 12
   /\ 1 <= PyDate.day d <= PyDate.days_in_month (PyDate.year d) (PyDate.month d))%Z.

(** The text with every brace doubled. *)
Fixpoint escape_braces (s : string) : string :=
  match s with
  | EmptyString => EmptyString
  | String c r =>
      if Ascii.eqb c "{" || Ascii.eqb c "}"
      then String c (String c (escape_braces r))
      else String c (escape_braces r)
  end.

(** One of the three fields [load_birthdays] reads. *)
Definition required_field (field : string) : Prop :=
  field = "date" \/ field = "name" \/ field = "nickname".

(** The value of a configuration variable that is set and not empty. *)
Definition configured_as (w : World) (variable value : string) : Prop :=
  environ w variable = Some value /\ value <> EmptyString.

(** A world whose templates file holds a number among the strings. *)
Definition number_among_templates : World :=
  mkWorld (fun path =>
             if String.eqb path MESSAGES_PATH
             then Json (JArr [JStr "Hi {name}"; JInt 7])
             else Sample.disk Sample.birthdays path)
          Sample.configured Sample.always_ok Sample.march5.

(** A world in which only the token is configured. *)
Definition token_only : World :=
  mkWorld (Sample.disk Sample.birthdays)
          (fun v => if String.eqb v "TELEGRAM_BOT_TOKEN" then Some "T0KEN" else None)
          Sample.always_ok Sample.march5.

(** A world whose templates file holds one blank line only. *)
Definition blank_templates : World :=
  mkWorld (fun path =>
             if String.eqb path MESSAGES_PATH then Json (JArr [JStr "  "])
             else Sample.disk Sample.birthdays path)
          Sample.configured Sample.always_ok Sample.march5.

(** A world whose only birthday entry has no name and a date that is not
    written year-month-day. *)
Definition nameless_bad_date : World :=
  mkWorld (Sample.disk (JArr [JObj [("nickname", JStr "ann"); ("date", JStr "05.03.1990")]]))
          Sample.configured Sample.always_ok Sample.march5.

(** * Properties *)

(** ** Trimming *)

Lemma lstrip_head (s : string) :
  PyStr.lstrip s = EmptyString
  \/ exists c r, PyStr.lstrip s = String c r /\ PyStr.isspace c = false.
Proof.
  induction s as [|c r IH]; simpl.
  - now left.
  - destruct (PyStr.isspace c) eqn:Hc; [exact IH|].
    right. now exists c, r.
Qed.

Lemma lstrip_nonspace (c : ascii) (r : string) :
  PyStr.isspace c = false -> PyStr.lstrip (String c r) = String c r.
Proof. intros Hc. simpl. now rewrite Hc. Qed.

Lemma rstrip_nonspace (c : ascii) (r : string) :
  PyStr.isspace c = false -> PyStr.rstrip (String c r) = String c (PyStr.rstrip r).
Proof.
  intros Hc. simpl. rewrite Hc. now destruct (PyStr.rstrip r).
Qed.

Lemma rstrip_idempotent (s : string) :
  PyStr.rstrip (PyStr.rstrip s) = PyStr.rstrip s.
Proof.
  induction s as [|c r IH]; [reflexivity|].
  simpl. destruct (PyStr.rstrip r) as [|a r'] eqn:Hr.
  - destruct (PyStr.isspace c) eqn:Hc; simpl; [reflexivity|]. now rewrite Hc.
  - change (PyStr.rstrip (String c (String a r'))) with
      (match PyStr.rstrip (String a r') with
       | EmptyString => if PyStr.isspace c then EmptyString else String c EmptyString
       | String a0 r0 => String c (String a0 r0)
       end).
    now rewrite IH.
Qed.

Lemma strip_idempotent (s : string) :
  PyStr.strip (PyStr.strip s) = PyStr.strip s.
Proof.
  unfold PyStr.strip.
  destruct (lstrip_head s) as [H | (c & r & H & Hc)]; rewrite H.
  - reflexivity.
  - rewrite (rstrip_nonspace c r Hc), (lstrip_nonspace c _ Hc).
    now rewrite (rstrip_nonspace c _ Hc), rstrip_idempotent.
Qed.

Lemma truthy_nonempty (s : string) : PyStr.truthy s = true <-> s <> EmptyString.
Proof. destruct s; simpl; split; congruence. Qed.

(** ** The celebrant filter *)

Lemma born_onb_spec (today : PyDate.date) (p : Person) :
  born_onb today p = true <-> born_on today p.
Proof.
  unfold born_onb, born_on. rewrite andb_true_iff, !Z.eqb_eq. tauto.
Qed.

Lemma celebrants_filter (people : list Person) (today : PyDate.date) :
  celebrants people today = filter (born_onb today) people.
Proof.
  induction people as [|p rest IH]; simpl; [reflexivity|].
  unfold born_onb at 1. rewrite IH.
  now destruct ((PyDate.month (birthday p) =? PyDate.month today)%Z
                && (PyDate.day (birthday p) =? PyDate.day today)%Z).
Qed.

(** C3. For every list of people and every reference date, the celebrants
    are exactly the people whose birthday has the month and the day of the
    reference date (the year plays no part), in the order of the input: the
    result is the input with the others removed, the filter distributes over
    concatenation, and it is the empty list, not an error, when nobody
    matches. *)
Theorem celebrants_exact (people : list Person) (today : PyDate.date) :
  celebrants people today = filter (born_onb today) people
  /\ (forall p, In p (celebrants people today) <-> In p people /\ born_on today p)
  /\ (forall before after,
         people = before ++ after ->
         celebrants people today = celebrants before today ++ celebrants after today)
  /\ (forall y, celebrants people (PyDate.mkdate y (PyDate.month today) (PyDate.day today))
                = celebrants people today)
  /\ ((forall p, In p people -> ~ born_on today p) -> celebrants people today = []).
Proof.
  split; [apply celebrants_filter|].
  split; [|split; [|split]].
  - intros p. rewrite celebrants_filter, filter_In, born_onb_spec. tauto.
  - intros before after ->. rewrite !celebrants_filter. apply filter_app.
  - intros y. now rewrite !celebrants_filter.
  - intros Hnone. rewrite celebrants_filter.
    induction people as [|p rest IH]; simpl; [reflexivity|].
    destruct (born_onb today p) eqn:Hp.
    + exfalso. apply (Hnone p); [now left | now apply born_onb_spec].
    + apply IH. intros q Hq. apply Hnone. now right.
Qed.

(** ** Loading the templates *)

Lemma template_entries_strings (lines : list string) :
  template_entries (map JStr lines)
  = Ok (map mkTemplate (filter PyStr.truthy (map PyStr.strip lines))).
Proof.
  induction lines as [|s rest IH]; simpl; [reflexivity|].
  destruct (PyStr.truthy (PyStr.strip s)); simpl; now rewrite IH.
Qed.

(** C9. From a templates file holding an array of strings,
    [load_message_templates] returns, in file order, one template for each
    entry that is non-empty after trimming, its text being the trimmed entry;
    every returned text is trimmed and non-empty; the entries that are empty
    after trimming are left out and the load succeeds. *)
Theorem load_message_templates_trimmed (w : World) (path : string)
        (lines : list string) (st : State) :
  files w path = Json (JArr (map JStr lines)) ->
  load_message_templates w path st
  = (Ok (map (fun s => mkTemplate (PyStr.strip s))
             (filter (fun s => PyStr.truthy (PyStr.strip s)) lines)),
     record (ReadFile path) st)
  /\ (forall templates st',
         load_message_templates w path st = (Ok templates, st') ->
         forall t, In t templates ->
                   PyStr.strip (text t) = text t /\ text t <> EmptyString).
Proof.
  intros Hfile.
  assert (Hrun : load_message_templates w path st
                 = (Ok (map (fun s => mkTemplate (PyStr.strip s))
                            (filter (fun s => PyStr.truthy (PyStr.strip s)) lines)),
                    record (ReadFile path) st)).
  { unfold load_message_templates, bind, read_json, lift. rewrite Hfile. simpl.
    rewrite template_entries_strings. f_equal. f_equal.
    clear. induction lines as [|s rest IH]; simpl; [reflexivity|].
    destruct (PyStr.truthy (PyStr.strip s)); simpl; now rewrite IH. }
  split; [exact Hrun|].
  intros templates st' Hload t Hin. rewrite Hrun in Hload.
  injection Hload as <- _.
  apply in_map_iff in Hin. destruct Hin as (s & <- & Hs).
  apply filter_In in Hs. destruct Hs as [_ Hs]. simpl. split.
  - apply strip_idempotent.
  - now apply truthy_nonempty.
Qed.

Lemma load_message_templates_trimmed_witness :
  load_message_templates Sample.happy MESSAGES_PATH Sample.start
  = (Ok [mkTemplate "Happy birthday, {mention}!"; mkTemplate "Hi {name} ({mention})"],
     record (ReadFile MESSAGES_PATH) Sample.start).
Proof.
  exact (proj1 (load_message_templates_trimmed Sample.happy MESSAGES_PATH
                  [" Happy birthday, {mention}! "; "   "; "Hi {name} ({mention})"]
                  Sample.start eq_refl)).
Defined.

(** ** The notifier *)

(** C6. Given the response the transport returns to the call,
    [send_telegram_message] returns normally exactly when the status code is
    below 400; for a status code of 400 or more it raises [TelegramApiError]
    with that status code and the body of the response as they are.  The
    call posts once. *)
Theorem send_succeeds_below_400 (w : World) (token chat_id message : string)
        (st : State) (status : Z) (body : string) :
  transport w (log st) (sendMessage token chat_id message) = Response status body ->
  (fst (send_telegram_message w token chat_id message st) = Ok tt <-> (status < 400)%Z)
  /\ ((400 <= status)%Z ->
      fst (send_telegram_message w token chat_id message st)
      = Raise (TelegramApiError status body))
  /\ snd (send_telegram_message w token chat_id message st)
     = record (Post (sendMessage token chat_id message)) st.
Proof.
  intros Hresp.
  unfold send_telegram_message, bind, requests_post. rewrite Hresp. simpl.
  destruct (status >=? 400)%Z eqn:Hs; unfold raise, ret; simpl.
  - apply Z.geb_le in Hs. repeat split; try easy. lia.
  - assert (status < 400)%Z by (rewrite Z.geb_leb in Hs; apply Z.leb_gt in Hs; lia).
    repeat split; try easy. lia.
Qed.

Lemma send_succeeds_below_400_witness :
  fst (send_telegram_message Sample.flaky "T0KEN" "-1001" "Hi"
         (record (Post (sendMessage "T0KEN" "-1001" "Hello")) Sample.start))
  = Raise (TelegramApiError 401 "Unauthorized").
Proof.
  refine (proj1 (proj2 (send_succeeds_below_400 Sample.flaky "T0KEN" "-1001" "Hi"
                          (record (Post (sendMessage "T0KEN" "-1001" "Hello")) Sample.start)
                          401 "Unauthorized" eq_refl)) _).
  discriminate.
Defined.

(** ** What the loaders leave in the state *)

Lemma load_birthdays_state (w : World) (path : string) (st st' : State)
      (r : result (list Person)) :
  load_birthdays w path st = (r, st') -> st' = record (ReadFile path) st.
Proof.
  unfold load_birthdays, bind, read_json, lift.
  destruct (files w path) as [| |v]; try (intros H; now inversion H).
  destruct (iterate v); intros H; now inversion H.
Qed.

Lemma load_message_templates_state (w : World) (path : string) (st st' : State)
      (r : result (list MessageTemplate)) :
  load_message_templates w path st = (r, st') -> st' = record (ReadFile path) st.
Proof.
  unfold load_message_templates, bind, read_json, lift.
  destruct (files w path) as [| |v]; try (intros H; now inversion H).
  destruct (iterate v); intros H; now inversion H.
Qed.

(** ** Configuration *)

Lemma get_env_variable_missing (w : World) (variable : string) (st : State) :
  environ w variable = None \/ environ w variable = Some EmptyString ->
  _get_env_variable w variable st
  = (Raise (MissingEnvironmentVariableError variable), record (GetEnv variable) st).
Proof.
  intros H. unfold _get_env_variable, bind, os_getenv.
  now destruct H as [-> | ->].
Qed.

Lemma get_env_variable_present (w : World) (variable value : string) (st : State) :
  environ w variable = Some value -> value <> EmptyString ->
  _get_env_variable w variable st = (Ok value, record (GetEnv variable) st).
Proof.
  intros H Hne. unfold _get_env_variable, bind, os_getenv. rewrite H.
  destruct value; [congruence | reflexivity].
Qed.

(** C10. [_get_env_variable] treats a variable set to the empty string as an
    unset one: in both cases it raises [MissingEnvironmentVariableError]
    naming the variable, and otherwise it returns the value as it is.  So a
    run that has a celebrant and whose [TELEGRAM_BOT_TOKEN] is the empty
    string ends in that error, raised for that variable, before the chat
    identifier is read, a template drawn or a message posted. *)
Theorem empty_variable_is_missing (w : World) :
  (forall variable st,
      environ w variable = None \/ environ w variable = Some EmptyString ->
      _get_env_variable w variable st
      = (Raise (MissingEnvironmentVariableError variable), record (GetEnv variable) st))
  /\ (forall variable value st,
         environ w variable = Some value -> value <> EmptyString ->
         _get_env_variable w variable st = (Ok value, record (GetEnv variable) st))
  /\ (forall today birthdays_path messages_path st people st1 templates st2,
         load_birthdays w birthdays_path st = (Ok people, st1) ->
         load_message_templates w messages_path st1 = (Ok templates, st2) ->
         celebrants people (match today with Some d => d | None => clock w end) <> [] ->
         environ w "TELEGRAM_BOT_TOKEN" = Some EmptyString ->
         congratulate_today w today birthdays_path messages_path st
         = (Raise (MissingEnvironmentVariableError "TELEGRAM_BOT_TOKEN"),
            record (GetEnv "TELEGRAM_BOT_TOKEN") st2)).
Proof.
  split; [|split].
  - intros variable st. apply get_env_variable_missing.
  - intros variable value st. apply get_env_variable_present.
  - intros today bp mp st people st1 templates st2 Hp Ht Hc Henv.
    unfold congratulate_today, bind at 1. rewrite Hp.
    unfold bind at 1. rewrite Ht.
    destruct (celebrants people _) as [|c cs]; [congruence|].
    unfold bind at 1.
    now rewrite (get_env_variable_missing w "TELEGRAM_BOT_TOKEN" st2 (or_intror Henv)).
Qed.

Lemma empty_variable_is_missing_witness :
  congratulate_today Sample.unset None BIRTHDAYS_PATH MESSAGES_PATH Sample.start
  = (Raise (MissingEnvironmentVariableError "TELEGRAM_BOT_TOKEN"),
     mkState (fun k => k)
       [ReadFile BIRTHDAYS_PATH; ReadFile MESSAGES_PATH; GetEnv "TELEGRAM_BOT_TOKEN"]).
Proof.
  exact (proj2 (proj2 (empty_variable_is_missing Sample.unset))
           None BIRTHDAYS_PATH MESSAGES_PATH Sample.start _ _ _ _
           eq_refl eq_refl ltac:(discriminate) eq_refl).
Defined.

(** ** A day without celebrants *)

(** C4. When both files load and nobody is born on the reference date, the
    run returns the empty list at once: the only effects are the two file
    reads, so no configuration value is read and nothing is posted, whatever
    the environment holds or lacks. *)
Theorem no_celebrant_no_configuration (w : World) (today : option PyDate.date)
        (birthdays_path messages_path : string) (st st1 st2 : State)
        (people : list Person) (templates : list MessageTemplate) :
  load_birthdays w birthdays_path st = (Ok people, st1) ->
  load_message_templates w messages_path st1 = (Ok templates, st2) ->
  celebrants people (match today with Some d => d | None => clock w end) = [] ->
  congratulate_today w today birthdays_path messages_path st = (Ok [], st2)
  /\ log st2 = log st ++ [ReadFile birthdays_path; ReadFile messages_path]
  /\ rng st2 = rng st
  /\ filter is_config_read (log st2) = filter is_config_read (log st)
  /\ filter is_post (log st2) = filter is_post (log st).
Proof.
  intros Hp Ht Hc.
  assert (Hlog : log st2 = log st ++ [ReadFile birthdays_path; ReadFile messages_path]).
  { apply load_birthdays_state in Hp. apply load_message_templates_state in Ht.
    subst st2 st1. simpl. now rewrite <- app_assoc. }
  split; [|split; [exact Hlog|split; [|split]]].
  - unfold congratulate_today, bind at 1. rewrite Hp.
    unfold bind at 1. rewrite Ht. now rewrite Hc.
  - apply load_birthdays_state in Hp. apply load_message_templates_state in Ht.
    now subst st2 st1.
  - rewrite Hlog, filter_app. simpl. now rewrite app_nil_r.
  - rewrite Hlog, filter_app. simpl. now rewrite app_nil_r.
Qed.

Lemma no_celebrant_no_configuration_witness :
  congratulate_today Sample.quiet None BIRTHDAYS_PATH MESSAGES_PATH Sample.start
  = (Ok [], mkState (fun k => k) [ReadFile BIRTHDAYS_PATH; ReadFile MESSAGES_PATH]).
Proof.
  exact (proj1 (no_celebrant_no_configuration Sample.quiet None
                  BIRTHDAYS_PATH MESSAGES_PATH Sample.start _ _ _ _
                  eq_refl eq_refl eq_refl)).
Defined.

(** ** Rendering *)


Lemma map_ok_id (r : result string) : map_ok (String.append EmptyString) r = r.
Proof. now destruct r. Qed.


(** [format] never raises one of the bot's own errors. *)
Lemma format_from_foreign (kwargs : string -> option string) (s : string) :
  forall sc e, PyStr.format_from kwargs sc s = Raise e -> is_BirthdayBotError e = false.
Proof.
  induction s as [|c r IH]; intros sc e.
  - destruct sc; simpl; intros H; inversion H; reflexivity.
  - simpl.
    assert (Hmap : forall (f : string -> string) sc',
               map_ok f (PyStr.format_from kwargs sc' r) = Raise e ->
               is_BirthdayBotError e = false).
    { intros f sc' H. destruct (PyStr.format_from kwargs sc' r) eqn:Hr;
        simpl in H; [discriminate|]. inversion H; subst. now apply (IH sc'). }
    assert (Hfield : forall field,
               PyStr.in_field kwargs field c
                 (fun sc' => PyStr.format_from kwargs sc' r) = Raise e ->
               is_BirthdayBotError e = false).
    { intros field. unfold PyStr.in_field, PyStr.get_field.
      destruct (Ascii.eqb c "}").
      - destruct (PyStr.get_integer 0 field).
        + intros H; inversion H; reflexivity.
        + destruct (kwargs field); [apply Hmap|]. intros H; inversion H; reflexivity.
        + intros H; inversion H; reflexivity.
      - destruct (Ascii.eqb c "{"); [intros H; inversion H; reflexivity|].
        destruct (_ || _); [intros H; inversion H; reflexivity|]. apply IH. }
    destruct sc; simpl.
    + destruct (Ascii.eqb c "{"); [apply IH|].
      destruct (Ascii.eqb c "}"); [apply IH | apply Hmap].
    + destruct (Ascii.eqb c "{"); [apply Hmap | apply Hfield].
    + destruct (Ascii.eqb c "}"); [apply Hmap|]. intros H; inversion H; reflexivity.
    + apply Hfield.
Qed.

Lemma render_foreign (t : MessageTemplate) (p : Person) (e : exn) :
  render t p = Raise e -> is_BirthdayBotError e = false.
Proof. apply format_from_foreign. Qed.








Lemma mention_starts_with_at (p : Person) : PyStr.startswith "@" (mention p) = true.
Proof.
  unfold mention.
  destruct (PyStr.startswith "@" (PyStr.strip (nickname p))) eqn:H; [exact H|].
  reflexivity.
Qed.




(** ** Selecting the messages *)

Lemma random_choice_inv {A : Type} (seq : list A) (st st' : State) (x : A) :
  random_choice seq st = (Ok x, st') ->
  nth_error seq (Nat.modulo (rng st 0) (List.length seq)) = Some x
  /\ st' = mkState (fun k => rng st (S k))
                   (log st ++ [Draw (List.length seq) (Nat.modulo (rng st 0) (List.length seq))]).
Proof.
  unfold random_choice.
  destruct (nth_error seq _) as [y|] eqn:Hn; intros H; inversion H; subst. now split.
Qed.

Lemma random_choice_raises {A : Type} (seq : list A) (st st' : State) (e : exn) :
  random_choice seq st = (Raise e, st') -> e = IndexError /\ st' = st.
Proof.
  unfold random_choice.
  destruct (nth_error seq _) as [y|] eqn:Hn; intros H; inversion H; subst. now split.
Qed.

Lemma random_choice_nonempty {A : Type} (seq : list A) (st : State) :
  seq <> [] ->
  exists x, nth_error seq (Nat.modulo (rng st 0) (List.length seq)) = Some x
            /\ random_choice seq st
               = (Ok x, mkState (fun k => rng st (S k))
                          (log st ++ [Draw (List.length seq)
                                        (Nat.modulo (rng st 0) (List.length seq))])).
Proof.
  intros Hne. unfold random_choice.
  destruct (nth_error seq (Nat.modulo (rng st 0) (List.length seq))) as [x|] eqn:Hn.
  - now exists x.
  - exfalso. apply nth_error_None in Hn.
    assert (List.length seq <> 0) by (destruct seq; simpl; congruence).
    pose proof (Nat.mod_upper_bound (rng st 0) (List.length seq) H). lia.
Qed.

(** A failing selection loop fails with a foreign exception. *)
Lemma select_loop_foreign (templates : list MessageTemplate) (people : list Person) :
  forall acc st e st',
    select_loop people templates acc st = (Raise e, st') ->
    is_BirthdayBotError e = false.
Proof.
  induction people as [|p rest IH]; intros acc st e st'; simpl.
  - unfold ret. intros H; inversion H.
  - unfold bind at 1.
    destruct (random_choice templates st) as [[t|e0] st1] eqn:Hc.
    + unfold bind, lift.
      destruct (render t p) as [m|e1] eqn:Hr.
      * apply IH.
      * intros H; inversion H; subst. now apply (render_foreign t p).
    + intros H; inversion H; subst.
      apply random_choice_raises in Hc. now destruct Hc as [-> _].
Qed.

Lemma select_loop_sound (templates : list MessageTemplate) (people : list Person) :
  forall acc st out st',
    select_loop people templates acc st = (Ok out, st') ->
    exists msgs, out = acc ++ msgs /\ Forall2 (rendering_of templates) people msgs.
Proof.
  induction people as [|p rest IH]; intros acc st out st'; simpl.
  - unfold ret. intros H; inversion H; subst. exists []. now rewrite app_nil_r.
  - unfold bind at 1.
    destruct (random_choice templates st) as [[t|e0] st1] eqn:Hc; [|discriminate].
    unfold bind at 1, lift.
    destruct (render t p) as [m|e1] eqn:Hr; [|discriminate].
    intros H. apply IH in H. destruct H as (msgs & -> & Hall).
    exists (m :: msgs). split; [now rewrite <- app_assoc|].
    constructor; [|exact Hall]. exists t. split; [|exact Hr].
    apply random_choice_inv in Hc. destruct Hc as [Hn _].
    now apply nth_error_In in Hn.
Qed.

Lemma select_loop_total (templates : list MessageTemplate) (people : list Person) :
  templates <> [] ->
  (forall t p, In t templates -> In p people -> exists m, render t p = Ok m) ->
  forall acc st,
  exists msgs st',
    select_loop people templates acc st = (Ok (acc ++ msgs), st')
    /\ List.length msgs = List.length people
    /\ (forall i p,
           nth_error people i = Some p ->
           exists t m,
             nth_error templates (Nat.modulo (rng st i) (List.length templates)) = Some t
             /\ render t p = Ok m /\ nth_error msgs i = Some m)
    /\ log st' = log st ++ map (fun i => Draw (List.length templates)
                                          (Nat.modulo (rng st i) (List.length templates)))
                             (seq 0 (List.length people)).
Proof.
  intros Hne. induction people as [|p rest IH]; intros Hrender acc st.
  - exists [], st. simpl. unfold ret. rewrite !app_nil_r.
    repeat split; try reflexivity. intros [|i] q H; discriminate.
  - destruct (random_choice_nonempty templates st Hne) as (t & Hn & Hc).
    destruct (Hrender t p (nth_error_In _ _ Hn) (or_introl eq_refl)) as [m Hm].
    set (st1 := mkState (fun k => rng st (S k))
                  (log st ++ [Draw (List.length templates)
                                (Nat.modulo (rng st 0) (List.length templates))])) in *.
    destruct (IH (fun t' q Ht Hq => Hrender t' q Ht (or_intror Hq)) (acc ++ [m]) st1)
      as (msgs & st' & Hrun & Hlen & Hnth & Hlog).
    exists (m :: msgs), st'. split; [|split; [|split]].
    + simpl. unfold bind at 1. rewrite Hc. unfold bind at 1, lift. rewrite Hm.
      rewrite Hrun. now rewrite <- app_assoc.
    + simpl. now rewrite Hlen.
    + intros [|i] q Hq; simpl in Hq.
      * inversion Hq; subst. now exists t, m.
      * destruct (Hnth i q Hq) as (t' & m' & H1 & H2 & H3). now exists t', m'.
    + rewrite Hlog. simpl. rewrite <- app_assoc. simpl.
      now rewrite <- seq_shift, map_map.
Qed.

(** C1, as the code has it.  [select_messages] raises the bot's "no message
    templates available" error exactly when the template list is empty,
    whether or not there is a celebrant, and it does so before any random
    draw: the state, generator and log, is left as it was. *)
Theorem select_messages_no_templates (people : list Person)
        (templates : list MessageTemplate) (st : State) :
  (templates = [] ->
   select_messages people templates st = (Raise (BirthdayBotError NoTemplates), st))
  /\ (forall why, fst (select_messages people templates st) = Raise (BirthdayBotError why) ->
                  templates = [] /\ why = NoTemplates).
Proof.
  split.
  - intros ->. reflexivity.
  - intros why. destruct templates as [|t ts]; simpl.
    + unfold raise. simpl. intros H; inversion H. now split.
    + destruct (select_loop people (t :: ts) [] st) as [[out|e] st'] eqn:Hrun; simpl;
        intros H; inversion H; subst.
      apply select_loop_foreign in Hrun. discriminate.
Qed.

Lemma select_messages_no_templates_witness :
  select_messages [Sample.ann] [] Sample.start
  = (Raise (BirthdayBotError NoTemplates), Sample.start).
Proof.
  exact (proj1 (select_messages_no_templates [Sample.ann] [] Sample.start) eq_refl).
Defined.

(** C1 as stated fails: with no celebrant and no template, [select_messages]
    raises; it does not return the empty list. *)
Lemma select_messages_empty_empty_raises :
  select_messages [] [] Sample.start = (Raise (BirthdayBotError NoTemplates), Sample.start)
  /\ fst (select_messages [] [] Sample.start) <> Ok [].
Proof. split; [reflexivity | discriminate]. Qed.




(** ** Sending *)

Lemma send_accepted (w : World) (token chat_id message : string) (st : State) :
  accepts w (log st) (sendMessage token chat_id message) = true ->
  send_telegram_message w token chat_id message st
  = (Ok tt, record (Post (sendMessage token chat_id message)) st).
Proof.
  unfold accepts, send_telegram_message, bind, requests_post.
  destruct (transport w (log st) _) as [status body|]; [|discriminate].
  intros H. simpl. rewrite Z.geb_leb.
  destruct (400 <=? status)%Z eqn:Hs; [|reflexivity].
  apply Z.leb_le in Hs. apply Z.ltb_lt in H. lia.
Qed.

Lemma send_rejected (w : World) (token chat_id message : string) (st : State) :
  accepts w (log st) (sendMessage token chat_id message) = false ->
  exists e,
    send_telegram_message w token chat_id message st
    = (Raise e, record (Post (sendMessage token chat_id message)) st)
    /\ transport_failure e.
Proof.
  unfold accepts, send_telegram_message, bind, requests_post.
  destruct (transport w (log st) _) as [status body|].
  - intros H. apply Z.ltb_ge in H. simpl. rewrite Z.geb_leb.
    destruct (400 <=? status)%Z eqn:Hs; [|apply Z.leb_gt in Hs; lia].
    exists (TelegramApiError status body). split; [reflexivity|].
    right. now exists status, body.
  - intros _. exists RequestException. split; [reflexivity | now left].
Qed.

Lemma send_all_delivered (w : World) (token chat_id : string) (messages : list string) :
  forall st,
    all_accepted w token chat_id (log st) messages = true ->
    send_all w token chat_id messages st
    = (Ok tt, mkState (rng st) (log st ++ posts token chat_id messages)).
Proof.
  induction messages as [|m rest IH]; intros st; simpl.
  - intros _. unfold ret. rewrite app_nil_r. now destruct st.
  - intros H. apply andb_true_iff in H. destruct H as [Hm Hrest].
    unfold bind. rewrite (send_accepted _ _ _ _ _ Hm).
    rewrite (IH (record (Post (sendMessage token chat_id m)) st) Hrest).
    simpl. now rewrite <- app_assoc.
Qed.

Lemma send_all_aborts (w : World) (token chat_id : string)
      (before : list string) (m : string) (after : list string) :
  forall st,
    all_accepted w token chat_id (log st) before = true ->
    accepts w (log st ++ posts token chat_id before) (sendMessage token chat_id m) = false ->
    exists e,
      send_all w token chat_id (before ++ m :: after) st
      = (Raise e, mkState (rng st) (log st ++ posts token chat_id (before ++ [m])))
      /\ transport_failure e.
Proof.
  induction before as [|b rest IH]; intros st; simpl.
  - intros _. rewrite app_nil_r. intros Hm.
    destruct (send_rejected _ _ _ _ _ Hm) as (e & Hsend & He).
    exists e. split; [|exact He]. unfold bind. now rewrite Hsend.
  - intros H Hm. apply andb_true_iff in H. destruct H as [Hb Hrest].
    unfold bind. rewrite (send_accepted _ _ _ _ _ Hb).
    destruct (IH (record (Post (sendMessage token chat_id b)) st)) as (e & Hrun & He).
    + exact Hrest.
    + simpl. now rewrite <- app_assoc.
    + exists e. split; [|exact He]. rewrite Hrun. simpl. now rewrite <- app_assoc.
Qed.

(** C2. Once the messages are selected, one per celebrant and in celebrant
    order, they are posted in that order.  When every post is accepted the
    run returns the messages and the log gains one post for each.  When the
    posts of [before] are accepted and the post of [m] fails, the run ends in
    that transport failure and the log gained exactly the posts of [before]
    followed by the one of [m], each once: nothing earlier is undone, the
    failed post is not repeated, and no message of [after] is posted. *)
Theorem sends_stop_at_first_failure (w : World) (today : option PyDate.date)
        (birthdays_path messages_path : string)
        (st st1 st2 st3 st4 st5 : State) (people : list Person)
        (templates : list MessageTemplate) (token chat_id : string)
        (messages : list string) :
  let reference := match today with Some d => d | None => clock w end in
  load_birthdays w birthdays_path st = (Ok people, st1) ->
  load_message_templates w messages_path st1 = (Ok templates, st2) ->
  celebrants people reference <> [] ->
  _get_env_variable w "TELEGRAM_BOT_TOKEN" st2 = (Ok token, st3) ->
  _get_env_variable w "TELEGRAM_CHAT_ID" st3 = (Ok chat_id, st4) ->
  select_messages (celebrants people reference) templates st4 = (Ok messages, st5) ->
  Forall2 (rendering_of templates) (celebrants people reference) messages
  /\ (all_accepted w token chat_id (log st5) messages = true ->
      congratulate_today w today birthdays_path messages_path st
      = (Ok messages, mkState (rng st5) (log st5 ++ posts token chat_id messages)))
  /\ (forall before m after,
         messages = before ++ m :: after ->
         all_accepted w token chat_id (log st5) before = true ->
         accepts w (log st5 ++ posts token chat_id before)
                 (sendMessage token chat_id m) = false ->
         exists e,
           congratulate_today w today birthdays_path messages_path st
           = (Raise e, mkState (rng st5) (log st5 ++ posts token chat_id (before ++ [m])))
           /\ transport_failure e).
Proof.
  intros reference Hp Ht Hc Htok Hchat Hsel.
  assert (Hrun : congratulate_today w today birthdays_path messages_path st
                 = match send_all w token chat_id messages st5 with
                   | (Ok _, st') => (Ok messages, st')
                   | (Raise e, st') => (Raise e, st')
                   end).
  { unfold congratulate_today. fold reference.
    unfold bind at 1. rewrite Hp. unfold bind at 1. rewrite Ht.
    destruct (celebrants people reference) as [|c cs] eqn:Hcel; [congruence|].
    unfold bind at 1. rewrite Htok. unfold bind at 1. rewrite Hchat.
    unfold bind at 1. rewrite Hsel. unfold bind at 1.
    destruct (send_all w token chat_id messages st5) as [[u|e] st']; reflexivity. }
  split; [|split].
  - destruct templates as [|t ts]; [discriminate|].
    simpl in Hsel. apply select_loop_sound in Hsel.
    destruct Hsel as (msgs & -> & Hall). exact Hall.
  - intros Hall. rewrite Hrun. now rewrite (send_all_delivered _ _ _ _ _ Hall).
  - intros before m after -> Hbefore Hm.
    destruct (send_all_aborts w token chat_id before m after st5 Hbefore Hm)
      as (e & Hsend & He).
    exists e. split; [|exact He]. rewrite Hrun. now rewrite Hsend.
Qed.

Lemma sends_stop_at_first_failure_witness :
  exists e st',
    congratulate_today Sample.flaky None BIRTHDAYS_PATH MESSAGES_PATH Sample.start
    = (Raise e, st')
    /\ log st'
       = [ReadFile BIRTHDAYS_PATH; ReadFile MESSAGES_PATH;
          GetEnv "TELEGRAM_BOT_TOKEN"; GetEnv "TELEGRAM_CHAT_ID";
          Draw 2 0; Draw 2 1; Draw 2 0;
          Post (sendMessage "T0KEN" "-1001" "Happy birthday, @ann!");
          Post (sendMessage "T0KEN" "-1001" "Hi Bob (@bob)")]
    /\ transport_failure e.
Proof.
  destruct (proj2 (proj2 (sends_stop_at_first_failure Sample.flaky None
                            BIRTHDAYS_PATH MESSAGES_PATH Sample.start
                            _ _ _ _ _ _ _ _ _ _
                            eq_refl eq_refl ltac:(discriminate) eq_refl eq_refl eq_refl))
              ["Happy birthday, @ann!"] "Hi Bob (@bob)" ["Happy birthday, @cid!"]
              eq_refl eq_refl eq_refl) as (e & Hrun & He).
  exists e. eexists. split; [exact Hrun|]. split; [reflexivity | exact He].
Defined.

(** ** Loading the people *)

Lemma strptime_raises (s : string) (e : exn) :
  PyDate.strptime s = Raise e -> e = ValueError.
Proof.
  unfold PyDate.strptime.
  destruct (PyDate.match_format s) as [[[[y m] d] rest]|]; [|congruence].
  destruct (PyStr.truthy rest); [congruence|].
  destruct (_ || _); congruence.
Qed.

Lemma load_entries_first_error (pre : list json) (entry : json) (post : list json)
      (e : exn) :
  load_entry entry = Raise e ->
  forall acc people,
    load_entries pre acc = Ok people ->
    load_entries (pre ++ entry :: post) acc = Raise e.
Proof.
  intros He. induction pre as [|a pre IH]; intros acc people; simpl.
  - intros _. now rewrite He.
  - destruct (load_entry a) as [p|x]; [apply IH | discriminate].
Qed.

Lemma load_birthdays_first_error (w : World) (path : string) (st : State)
      (pre : list json) (entry : json) (post : list json)
      (people : list Person) (e : exn) :
  files w path = Json (JArr (pre ++ entry :: post)) ->
  load_entries pre [] = Ok people ->
  load_entry entry = Raise e ->
  load_birthdays w path st = (Raise e, record (ReadFile path) st).
Proof.
  intros Hfile Hpre He.
  unfold load_birthdays, bind, read_json, lift. rewrite Hfile. simpl.
  now rewrite (load_entries_first_error pre entry post e He [] people Hpre).
Qed.

Lemma load_failure_ends_run (w : World) (today : option PyDate.date)
      (birthdays_path messages_path : string) (st st' : State) (e : exn) :
  load_birthdays w birthdays_path st = (Raise e, st') ->
  congratulate_today w today birthdays_path messages_path st = (Raise e, st').
Proof.
  intros H. unfold congratulate_today, bind at 1. now rewrite H.
Qed.

Lemma main_reports (w : World) (st st' : State) (e : exn) :
  congratulate_today w None BIRTHDAYS_PATH MESSAGES_PATH st = (Raise e, st') ->
  main w st = (if is_BirthdayBotError e then SystemExit e else Uncaught e, st')
  /\ exit_status (fst (main w st)) = 1%Z.
Proof.
  intros H. unfold main. rewrite H.
  destruct (is_BirthdayBotError e); now split.
Qed.

(** C5, as the code has it.  Let the birthdays file hold an array whose
    entries before [entry] all load, [entry] being an object.  If [entry] has
    no [date], or has a date that parses but no [name], or has a date that
    parses and a string name but no [nickname], [load_birthdays] raises the
    bot's error that carries this entry and the name of that field; the run
    raises it without doing anything more and [main] reports it: the process
    ends through [SystemExit] with the message of the error, exit status 1.
    If the [date] of [entry] is a string that does not parse as
    year-month-day, whatever else the entry holds or lacks,
    [load_birthdays] raises the [ValueError] of the date parser; the run
    raises it too, but [main] does not catch it: the process ends on an
    uncaught exception, exit status 1. *)
Theorem load_birthdays_errors (w : World) (path : string) (st : State)
        (pre post : list json) (people : list Person)
        (members : list (string * json)) :
  let entry := JObj members in
  let run_fails e :=
    load_birthdays w path st = (Raise e, record (ReadFile path) st)
    /\ forall today messages_path,
        congratulate_today w today path messages_path st
        = (Raise e, record (ReadFile path) st) in
  let program_ends t :=
    path = BIRTHDAYS_PATH ->
    main w st = (t, record (ReadFile path) st) /\ exit_status t = 1%Z in
  files w path = Json (JArr (pre ++ entry :: post)) ->
  load_entries pre [] = Ok people ->
  (dict_get "date" members = None ->
   run_fails (BirthdayBotError (MissingField entry "date"))
   /\ program_ends (SystemExit (BirthdayBotError (MissingField entry "date"))))
  /\ (forall s d,
         dict_get "date" members = Some (JStr s) -> PyDate.strptime s = Ok d ->
         dict_get "name" members = None ->
         run_fails (BirthdayBotError (MissingField entry "name"))
         /\ program_ends (SystemExit (BirthdayBotError (MissingField entry "name"))))
  /\ (forall s d n,
         dict_get "date" members = Some (JStr s) -> PyDate.strptime s = Ok d ->
         dict_get "name" members = Some (JStr n) ->
         dict_get "nickname" members = None ->
         run_fails (BirthdayBotError (MissingField entry "nickname"))
         /\ program_ends (SystemExit (BirthdayBotError (MissingField entry "nickname"))))
  /\ (forall s,
         dict_get "date" members = Some (JStr s) ->
         (forall d, PyDate.strptime s <> Ok d) ->
         run_fails ValueError /\ program_ends (Uncaught ValueError)).
Proof.
  intros entry run_fails program_ends Hfile Hpre.
  assert (Hfail : forall e,
             load_entry entry = Raise e ->
             run_fails e
             /\ program_ends (if is_BirthdayBotError e then SystemExit e else Uncaught e)).
  { intros e He.
    pose proof (load_birthdays_first_error w path st pre entry post people e
                  Hfile Hpre He) as Hload.
    split; [split|].
    - exact Hload.
    - intros today messages_path. now apply load_failure_ends_run.
    - intros ->.
      destruct (main_reports w st _ e
                  (load_failure_ends_run w None _ MESSAGES_PATH _ _ e Hload))
        as [Hmain _].
      split; [exact Hmain|]. now destruct (is_BirthdayBotError e). }
  split; [|split; [|split]].
  - intros Hd.
    apply (Hfail (BirthdayBotError (MissingField entry "date"))).
    unfold load_entry, try_entry. simpl. now rewrite Hd.
  - intros s d Hd Hs Hn.
    apply (Hfail (BirthdayBotError (MissingField entry "name"))).
    unfold load_entry, try_entry. simpl.
    rewrite Hd. simpl. rewrite Hs. simpl. now rewrite Hn.
  - intros s d n Hd Hs Hn Hk.
    apply (Hfail (BirthdayBotError (MissingField entry "nickname"))).
    unfold load_entry, try_entry. simpl.
    rewrite Hd. simpl. rewrite Hs. simpl. rewrite Hn. simpl. now rewrite Hk.
  - intros s Hd Hs. apply (Hfail ValueError).
    unfold load_entry, try_entry. simpl. rewrite Hd. simpl.
    destruct (PyDate.strptime s) as [d|e] eqn:Hp; [now elim (Hs d)|].
    apply strptime_raises in Hp. now subst e.
Qed.

Lemma load_birthdays_errors_witness :
  main Sample.broken Sample.start
  = (SystemExit (BirthdayBotError
                   (MissingField (JObj [("name", JStr "Eve"); ("date", JStr "1999-12-31")])
                                 "nickname")),
     record (ReadFile BIRTHDAYS_PATH) Sample.start).
Proof.
  pose proof (load_birthdays_errors Sample.broken BIRTHDAYS_PATH Sample.start
                [Sample.entry_of "Ann" "ann" "1990-03-05"]
                [Sample.entry_of "Bob" "@bob" "1985-03-05"]
                [Sample.ann]
                [("name", JStr "Eve"); ("date", JStr "1999-12-31")]
                eq_refl eq_refl) as (_ & _ & Hnick & _).
  exact (proj1 (proj2 (Hnick "1999-12-31" (PyDate.mkdate 1999 12 31) "Eve"
                         eq_refl eq_refl eq_refl eq_refl) eq_refl)).
Defined.

(** C5 as stated fails on an entry that has a nickname, no name, and the date
    "05.03.1990": the entry lacks a required field, yet the error is the date
    parser's [ValueError], not the bot's error naming the field; and [main],
    which catches the bot's errors only, does not report it: no [SystemExit]
    with a message, the exception leaves the program uncaught. *)
Lemma unparsable_date_escapes_main :
  load_birthdays nameless_bad_date BIRTHDAYS_PATH Sample.start
  = (Raise ValueError, record (ReadFile BIRTHDAYS_PATH) Sample.start)
  /\ (forall field,
         fst (load_birthdays nameless_bad_date BIRTHDAYS_PATH Sample.start)
         <> Raise (BirthdayBotError
                     (MissingField
                        (JObj [("nickname", JStr "ann"); ("date", JStr "05.03.1990")])
                        field)))
  /\ main nameless_bad_date Sample.start
     = (Uncaught ValueError, record (ReadFile BIRTHDAYS_PATH) Sample.start)
  /\ (forall e, fst (main nameless_bad_date Sample.start) <> SystemExit e).
Proof.
  split; [reflexivity|]. split; [intros field; discriminate|].
  split; [reflexivity | intros e; discriminate].
Qed.


(** ** A whole run *)

Example three_celebrants_three_posts :
  let (t, st') := main Sample.happy Sample.start in
  t = Returned ["Sent the following birthday messages:";
                "- Happy birthday, @ann!"; "- Hi Bob (@bob)"; "- Happy birthday, @cid!"]
  /\ filter is_post (log st')
     = posts "T0KEN" "-1001"
         ["Happy birthday, @ann!"; "Hi Bob (@bob)"; "Happy birthday, @cid!"].
Proof. split; reflexivity. Qed.

Example nobody_today_prints_so :
  fst (main Sample.quiet Sample.start) = Returned ["No birthdays today."].
Proof. reflexivity. Qed.


(** * Further properties *)

(** ** What a successful load of the people means *)

Lemma load_entry_ok (entry : json) (p : Person) :
  load_entry entry = Ok p <-> loads_as entry p.
Proof.
  split.
  - unfold load_entry, try_entry, subscript.
    destruct entry as [| | | | | |members]; try discriminate.
    destruct (dict_get "date" members) as [d|] eqn:Hd; [|discriminate].
    cbn [bind_result].
    destruct d as [| | | |s| |]; try discriminate.
    cbn [strptime_date].
    destruct (PyDate.strptime s) as [born|e] eqn:Hs;
      [|cbn [bind_result]; destruct e; discriminate].
    cbn [bind_result].
    destruct (dict_get "name" members) as [n|] eqn:Hn; [|discriminate].
    cbn [bind_result].
    destruct n as [| | | |n| |]; try discriminate.
    cbn [call_strip bind_result].
    destruct (dict_get "nickname" members) as [k|] eqn:Hk; [|discriminate].
    cbn [bind_result].
    destruct k as [| | | |k| |]; try discriminate.
    cbn [call_strip bind_result].
    intros H. inversion H; subst. exists members, n, k, s. now repeat split.
  - intros (members & n & k & s & -> & Hd & Hn & Hk & Hs & Hname & Hnick).
    unfold load_entry, try_entry, subscript.
    rewrite Hd. cbn [bind_result strptime_date]. rewrite Hs. cbn [bind_result].
    rewrite Hn. cbn [bind_result call_strip]. rewrite Hk. cbn [bind_result call_strip].
    destruct p as [pn pk pb]. simpl in *. now subst.
Qed.

Lemma load_entries_ok (entries : list json) :
  forall acc out,
    load_entries entries acc = Ok out
    <-> exists people, out = acc ++ people /\ Forall2 loads_as entries people.
Proof.
  induction entries as [|entry rest IH]; intros acc out; simpl.
  - split.
    + intros H. inversion H; subst. exists []. now rewrite app_nil_r.
    + intros (people & -> & Hall). inversion Hall. now rewrite app_nil_r.
  - destruct (load_entry entry) as [p|e] eqn:He.
    + rewrite IH. split.
      * intros (people & -> & Hall). exists (p :: people).
        split; [now rewrite <- app_assoc|].
        constructor; [now apply load_entry_ok | exact Hall].
      * intros (people & -> & Hall). inversion Hall as [|e0 q es qs Hq Hrest]; subst.
        apply load_entry_ok in Hq. rewrite He in Hq. inversion Hq; subst.
        exists qs. split; [now rewrite <- app_assoc | exact Hrest].
    + split; [discriminate|].
      intros (people & -> & Hall). inversion Hall as [|e0 q es qs Hq Hrest]; subst.
      apply load_entry_ok in Hq. rewrite He in Hq. discriminate.
Qed.

Lemma load_birthdays_inv (w : World) (path : string) (st st' : State)
      (people : list Person) :
  load_birthdays w path st = (Ok people, st') ->
  exists v items,
    files w path = Json v /\ iterate v = Ok items /\ Forall2 loads_as items people.
Proof.
  unfold load_birthdays, bind, read_json, lift.
  destruct (files w path) as [| |v]; try discriminate.
  destruct (iterate v) as [items|e] eqn:Hi; [|discriminate].
  intros H. exists v, items. split; [reflexivity|]. split; [exact Hi|].
  inversion H as [[Hl Hst]]. apply load_entries_ok in Hl.
  destruct Hl as (ps & -> & Hall). exact Hall.
Qed.

Lemma Forall2_In_right {A B : Type} (R : A -> B -> Prop) (xs : list A) (ys : list B) :
  Forall2 R xs ys -> forall y, In y ys -> exists x, In x xs /\ R x y.
Proof.
  induction 1 as [|x y xs ys Hxy Hall IH]; intros z Hz; [contradiction|].
  destruct Hz as [<- | Hz].
  - exists x. split; [now left | exact Hxy].
  - destruct (IH z Hz) as (x' & Hin & Hr). exists x'. split; [now right | exact Hr].
Qed.

(** X1. For a birthdays file holding an array, [load_birthdays] succeeds with
    [people] exactly when the entries, one by one and in order, are objects
    with string fields [date], [name] and [nickname], the date parsing, and
    [people] are the persons built from them with name and nickname trimmed. *)
Theorem load_birthdays_exact (w : World) (path : string) (st : State)
        (entries : list json) (people : list Person) :
  files w path = Json (JArr entries) ->
  load_birthdays w path st = (Ok people, record (ReadFile path) st)
  <-> Forall2 loads_as entries people.
Proof.
  intros Hfile. unfold load_birthdays, bind, read_json, lift. rewrite Hfile. simpl.
  split.
  - intros H. inversion H as [Hl]. apply load_entries_ok in Hl.
    destruct Hl as (ps & -> & Hall). exact Hall.
  - intros Hall.
    assert (Hl : load_entries entries [] = Ok people)
      by (apply load_entries_ok; now exists people).
    now rewrite Hl.
Qed.

Lemma load_birthdays_exact_witness :
  Forall2 loads_as
    [Sample.entry_of "Dan" "dan" "1990-07-09"]
    [Sample.dan].
Proof.
  exact (proj1 (load_birthdays_exact Sample.quiet BIRTHDAYS_PATH Sample.start
                  [Sample.entry_of "Dan" "dan" "1990-07-09"] [Sample.dan] eq_refl)
           eq_refl).
Defined.

(** X2. Every person that [load_birthdays] returns, from whatever the file
    holds, has a name and a nickname free of surrounding whitespace; so the
    mention of a loaded person is the nickname itself when it starts with
    [@], and the nickname with [@] in front otherwise. *)
Theorem loaded_people_are_trimmed (w : World) (path : string) (st st' : State)
        (people : list Person) (p : Person) :
  load_birthdays w path st = (Ok people, st') ->
  In p people ->
  PyStr.strip (name p) = name p
  /\ PyStr.strip (nickname p) = nickname p
  /\ mention p = if PyStr.startswith "@" (nickname p)
                 then nickname p else String "@" (nickname p).
Proof.
  intros Hload Hin.
  destruct (load_birthdays_inv _ _ _ _ _ Hload) as (v & items & _ & _ & Hall).
  destruct (Forall2_In_right _ _ _ Hall p Hin)
    as (entry & _ & members & n & k & s & _ & _ & _ & _ & _ & Hn & Hk).
  assert (Hnick : PyStr.strip (nickname p) = nickname p)
    by (rewrite Hk; apply strip_idempotent).
  split; [rewrite Hn; apply strip_idempotent|]. split; [exact Hnick|].
  unfold mention. now rewrite Hnick.
Qed.

Lemma loaded_people_are_trimmed_witness :
  PyStr.strip (name Sample.ann) = name Sample.ann
  /\ PyStr.strip (nickname Sample.ann) = nickname Sample.ann
  /\ mention Sample.ann = "@ann".
Proof.
  exact (loaded_people_are_trimmed Sample.happy BIRTHDAYS_PATH Sample.start _ _
           Sample.ann eq_refl (or_introl eq_refl)).
Defined.

(** ** Parsed dates are dates of the calendar *)

Lemma isdecimal_digit (c : ascii) :
  PyStr.isdecimal c = true -> (0 <= PyStr.digit c <= 9)%Z.
Proof.
  unfold PyStr.isdecimal, PyStr.digit. rewrite andb_true_iff, !N.leb_le. lia.
Qed.

Lemma in_range_digit (lo hi c : ascii) :
  PyDate.in_range lo hi c = true ->
  (PyStr.digit lo <= PyStr.digit c <= PyStr.digit hi)%Z.
Proof.
  unfold PyDate.in_range, PyStr.digit. rewrite andb_true_iff, !N.leb_le. lia.
Qed.

Lemma two_chars_bounds (lo1 hi1 lo2 hi2 : ascii) (s r : string) (v : Z) :
  PyDate.two_chars lo1 hi1 lo2 hi2 s = Some (v, r) ->
  (10 * PyStr.digit lo1 + PyStr.digit lo2 <= v <= 10 * PyStr.digit hi1 + PyStr.digit hi2)%Z.
Proof.
  unfold PyDate.two_chars. destruct s as [|a [|b t]]; try discriminate.
  destruct (PyDate.in_range lo1 hi1 a) eqn:Ha; [|discriminate].
  destruct (PyDate.in_range lo2 hi2 b) eqn:Hb; [|discriminate].
  cbn [andb]. intros H.
  assert (Hv : v = (10 * PyStr.digit a + PyStr.digit b)%Z) by congruence.
  apply in_range_digit in Ha, Hb. lia.
Qed.

Lemma one_char_bounds (lo hi : ascii) (s r : string) (v : Z) :
  PyDate.one_char lo hi s = Some (v, r) ->
  (PyStr.digit lo <= v <= PyStr.digit hi)%Z.
Proof.
  unfold PyDate.one_char. destruct s as [|a t]; [discriminate|].
  destruct (PyDate.in_range lo hi a) eqn:Ha; [|discriminate].
  intros H. inversion H; subst. now apply in_range_digit.
Qed.

Lemma space_then_bounds (lo hi : ascii) (s r : string) (v : Z) :
  PyDate.space_then lo hi s = Some (v, r) ->
  (PyStr.digit lo <= v <= PyStr.digit hi)%Z.
Proof.
  unfold PyDate.space_then. destruct s as [|a [|b t]]; try discriminate.
  destruct (Ascii.eqb a " "); [|discriminate]. simpl.
  destruct (PyDate.in_range lo hi b) eqn:Hb; [|discriminate].
  intros H. inversion H; subst. now apply in_range_digit.
Qed.

Lemma first_match_bounded {B : Type} (lo hi : Z) (alts : list PyDate.piece)
      (k : Z -> string -> option B) (s : string) (b : B) :
  (forall a, In a alts -> forall t v r, a t = Some (v, r) -> (lo <= v <= hi)%Z) ->
  PyDate.first_match alts k s = Some b ->
  exists v r, (lo <= v <= hi)%Z /\ k v r = Some b.
Proof.
  induction alts as [|a more IH]; intros Hall; simpl; [discriminate|].
  destruct (a s) as [[v r]|] eqn:Ha.
  - destruct (k v r) as [b'|] eqn:Hk.
    + intros H. inversion H; subst. exists v, r. split; [|exact Hk].
      apply (Hall a (or_introl eq_refl) s v r Ha).
    + apply IH. intros a' Ha'. apply Hall. now right.
  - apply IH. intros a' Ha'. apply Hall. now right.
Qed.

Lemma month_alternatives_bounded (a : PyDate.piece) :
  In a PyDate.month_alternatives ->
  forall t v r, a t = Some (v, r) -> (1 <= v <= 12)%Z.
Proof.
  intros [<- | [<- | [<- | []]]] t v r H.
  - apply two_chars_bounds in H. change (10 <= v <= 12)%Z in H. lia.
  - apply two_chars_bounds in H. change (1 <= v <= 9)%Z in H. lia.
  - apply one_char_bounds in H. change (1 <= v <= 9)%Z in H. lia.
Qed.

Lemma day_alternatives_bounded (a : PyDate.piece) :
  In a PyDate.day_alternatives ->
  forall t v r, a t = Some (v, r) -> (1 <= v <= 31)%Z.
Proof.
  intros [<- | [<- | [<- | [<- | [<- | []]]]]] t v r H.
  - apply two_chars_bounds in H. change (30 <= v <= 31)%Z in H. lia.
  - apply two_chars_bounds in H. change (10 <= v <= 29)%Z in H. lia.
  - apply two_chars_bounds in H. change (1 <= v <= 9)%Z in H. lia.
  - apply one_char_bounds in H. change (1 <= v <= 9)%Z in H. lia.
  - apply space_then_bounds in H. change (1 <= v <= 9)%Z in H. lia.
Qed.

Lemma year_piece_bounds (s r : string) (y : Z) :
  PyDate.year_piece s = Some (y, r) -> (0 <= y <= 9999)%Z.
Proof.
  unfold PyDate.year_piece. destruct s as [|a [|b [|c [|d t]]]]; try discriminate.
  destruct (PyStr.isdecimal a) eqn:Ha; [|discriminate].
  destruct (PyStr.isdecimal b) eqn:Hb; [|discriminate].
  destruct (PyStr.isdecimal c) eqn:Hc; [|discriminate].
  destruct (PyStr.isdecimal d) eqn:Hd; [|discriminate].
  cbn [andb PyStr.decimal_value]. intros H.
  assert (Hy : y = (10 * (10 * (10 * (10 * 0 + PyStr.digit a) + PyStr.digit b)
                          + PyStr.digit c) + PyStr.digit d)%Z) by congruence.
  apply isdecimal_digit in Ha, Hb, Hc, Hd. lia.
Qed.

Lemma match_format_bounds (s rest : string) (y m d : Z) :
  PyDate.match_format s = Some (y, m, d, rest) ->
  (0 <= y <= 9999 /\ 1 <= m <= 12 /\ 1 <= d <= 31)%Z.
Proof.
  unfold PyDate.match_format.
  destruct (PyDate.year_piece s) as [[y0 r1]|] eqn:Hy; [|discriminate].
  destruct (PyDate.dash r1) as [r2|]; [|discriminate].
  intros H.
  apply (first_match_bounded 1 12 _ _ _ _ month_alternatives_bounded) in H.
  destruct H as (m0 & r3 & Hm & H).
  destruct (PyDate.dash r3) as [r4|]; [|discriminate].
  apply (first_match_bounded 1 31 _ _ _ _ day_alternatives_bounded) in H.
  destruct H as (d0 & r5 & Hd & H).
  assert (y0 = y /\ m0 = m /\ d0 = d) as (-> & -> & ->) by (repeat split; congruence).
  apply year_piece_bounds in Hy. tauto.
Qed.

Lemma strptime_valid (s : string) (born : PyDate.date) :
  PyDate.strptime s = Ok born -> valid_date born.
Proof.
  unfold PyDate.strptime.
  destruct (PyDate.match_format s) as [[[[y m] d] rest]|] eqn:Hm; [|discriminate].
  destruct (PyStr.truthy rest); [discriminate|].
  destruct (y <? 1)%Z eqn:Hy; [discriminate|].
  destruct (PyDate.days_in_month y m <? d)%Z eqn:Hd; [discriminate|].
  cbn [orb]. intros H.
  assert (Hb : born = PyDate.mkdate y m d) by congruence. subst born.
  apply match_format_bounds in Hm.
  apply Z.ltb_ge in Hy, Hd. unfold valid_date. cbn [PyDate.year PyDate.month PyDate.day].
  lia.
Qed.

(** X3. Every person that [load_birthdays] returns has a birthday that is a
    date of the calendar: a year from 1 to 9999, a month from 1 to 12 and a
    day that this month of this year has. *)
Theorem loaded_birthdays_are_valid (w : World) (path : string) (st st' : State)
        (people : list Person) (p : Person) :
  load_birthdays w path st = (Ok people, st') ->
  In p people ->
  valid_date (birthday p).
Proof.
  intros Hload Hin.
  destruct (load_birthdays_inv _ _ _ _ _ Hload) as (v & items & _ & _ & Hall).
  destruct (Forall2_In_right _ _ _ Hall p Hin)
    as (entry & _ & members & n & k & s & _ & _ & _ & _ & Hs & _).
  now apply (strptime_valid s).
Qed.

Lemma loaded_birthdays_are_valid_witness : valid_date (birthday Sample.bob).
Proof.
  exact (loaded_birthdays_are_valid Sample.happy BIRTHDAYS_PATH Sample.start _ _
           Sample.bob eq_refl (or_intror (or_intror (or_introl eq_refl)))).
Defined.

(** X4. A person born on 29 February is a celebrant on 29 February only: on
    no date of a year that is not a leap year does the filter keep such a
    person. *)
Theorem leap_day_birthdays_skip_common_years (people : list Person)
        (today : PyDate.date) (p : Person) :
  PyDate.month (birthday p) = 2%Z ->
  PyDate.day (birthday p) = 29%Z ->
  valid_date today ->
  PyDate.is_leap (PyDate.year today) = false ->
  ~ In p (celebrants people today).
Proof.
  intros Hm Hd (_ & _ & Hday) Hleap Hin.
  rewrite celebrants_filter in Hin. apply filter_In in Hin.
  destruct Hin as [_ Hb]. apply born_onb_spec in Hb. destruct Hb as [Hbm Hbd].
  rewrite Hm in Hbm. rewrite Hd in Hbd.
  unfold PyDate.days_in_month in Hday. rewrite <- Hbm, <- Hbd, Hleap in Hday.
  simpl in Hday. lia.
Qed.

Lemma leap_day_birthdays_skip_common_years_witness :
  ~ In (mkPerson "Leo" "leo" (PyDate.mkdate 2000 2 29))
       (celebrants [mkPerson "Leo" "leo" (PyDate.mkdate 2000 2 29)]
                   (PyDate.mkdate 2023 2 28)).
Proof.
  apply leap_day_birthdays_skip_common_years; try reflexivity.
  unfold valid_date. vm_compute. repeat split; discriminate.
Defined.

(** ** Which errors the loaders raise *)

Lemma load_entry_bot_error (entry : json) (e : exn) :
  load_entry entry = Raise e ->
  is_BirthdayBotError e = true ->
  exists members field,
    entry = JObj members
    /\ dict_get field members = None
    /\ required_field field
    /\ e = BirthdayBotError (MissingField entry field).
Proof.
  unfold load_entry, try_entry, subscript, required_field.
  destruct entry as [| | | | | |members];
    try (cbn [bind_result]; intros H; inversion H; discriminate).
  destruct (dict_get "date" members) as [d|] eqn:Hd; cbn [bind_result].
  2:{ intros H _. inversion H; subst. exists members, "date". repeat split; auto. }
  destruct d as [| | | |s| |];
    try (cbn [strptime_date bind_result]; intros H; inversion H; discriminate).
  cbn [strptime_date].
  destruct (PyDate.strptime s) as [born|x] eqn:Hs; cbn [bind_result].
  2:{ apply strptime_raises in Hs. subst x. intros H; inversion H; discriminate. }
  destruct (dict_get "name" members) as [n|] eqn:Hn; cbn [bind_result].
  2:{ intros H _. inversion H; subst. exists members, "name". repeat split; auto. }
  destruct n as [| | | |n| |];
    try (cbn [call_strip bind_result]; intros H; inversion H; discriminate).
  cbn [call_strip bind_result].
  destruct (dict_get "nickname" members) as [k|] eqn:Hk; cbn [bind_result].
  2:{ intros H _. inversion H; subst. exists members, "nickname". repeat split; auto. }
  destruct k as [| | | |k| |];
    cbn [call_strip bind_result]; intros H; inversion H; discriminate.
Qed.

Lemma load_entries_raises (entries : list json) (e : exn) :
  forall acc,
    load_entries entries acc = Raise e ->
    exists entry, In entry entries /\ load_entry entry = Raise e.
Proof.
  induction entries as [|entry rest IH]; intros acc; simpl; [discriminate|].
  destruct (load_entry entry) as [p|x] eqn:He.
  - intros H. destruct (IH _ H) as (entry' & Hin & Hraise).
    exists entry'. split; [now right | exact Hraise].
  - intros H. inversion H; subst. exists entry. split; [now left | exact He].
Qed.

(** X5. When [load_birthdays] raises one of the bot's own errors, the file
    holds an object that lacks [date], [name] or [nickname], and the error is
    the one that carries this object and this field.  Any other defect of the
    file (a missing file, invalid JSON, an entry that is not an object, a
    field that is not a string, a date that does not parse) surfaces as a
    foreign exception. *)
Theorem load_birthdays_bot_error_is_missing_field
        (w : World) (path : string) (st st' : State) (e : exn) :
  load_birthdays w path st = (Raise e, st') ->
  is_BirthdayBotError e = true ->
  exists v items members field,
    files w path = Json v
    /\ iterate v = Ok items
    /\ In (JObj members) items
    /\ dict_get field members = None
    /\ required_field field
    /\ e = BirthdayBotError (MissingField (JObj members) field).
Proof.
  unfold load_birthdays, bind, read_json, lift.
  destruct (files w path) as [| |v]; try (intros H; inversion H; discriminate).
  destruct (iterate v) as [items|x] eqn:Hi.
  - intros H Hbot. assert (Hl : load_entries items [] = Raise e) by congruence.
    destruct (load_entries_raises _ _ _ Hl) as (entry & Hin & He).
    destruct (load_entry_bot_error _ _ He Hbot) as (members & field & -> & Hf & Hr & ->).
    exists v, items, members, field. repeat split; assumption.
  - intros H Hbot. assert (x = e) by congruence. subst x.
    destruct v; simpl in Hi; try discriminate; inversion Hi; subst; discriminate.
Qed.

Lemma load_birthdays_bot_error_is_missing_field_witness :
  exists v items members field,
    files Sample.broken BIRTHDAYS_PATH = Json v
    /\ iterate v = Ok items
    /\ In (JObj members) items
    /\ dict_get field members = None
    /\ required_field field
    /\ BirthdayBotError
         (MissingField (JObj [("name", JStr "Eve"); ("date", JStr "1999-12-31")]) "nickname")
       = BirthdayBotError (MissingField (JObj members) field).
Proof.
  exact (load_birthdays_bot_error_is_missing_field Sample.broken BIRTHDAYS_PATH
           Sample.start _ _ eq_refl eq_refl).
Defined.

Lemma template_entries_raises (entries : list json) (e : exn) :
  template_entries entries = Raise e ->
  e = AttributeError
  /\ exists entry, In entry entries /\ forall s, entry <> JStr s.
Proof.
  induction entries as [|entry rest IH]; simpl; [discriminate|].
  destruct entry as [| | | |s| |];
    try (cbn [call_strip bind_result]; intros H; inversion H; split;
         [reflexivity | eexists; split; [now left | discriminate]]).
  cbn [call_strip bind_result].
  assert (Hrest : template_entries rest = Raise e ->
                  e = AttributeError
                  /\ exists entry, In entry (JStr s :: rest) /\ forall t, entry <> JStr t).
  { intros H. destruct (IH H) as (-> & entry & Hin & Hne).
    split; [reflexivity|]. exists entry. split; [now right | exact Hne]. }
  destruct (PyStr.truthy (PyStr.strip s)); [|exact Hrest].
  destruct (template_entries rest) as [ts|x]; [discriminate|].
  cbn [map_ok]. intros H. apply Hrest. congruence.
Qed.

Lemma template_entries_non_string (lines : list string) (entry : json)
      (rest : list json) :
  (forall s, entry <> JStr s) ->
  template_entries (map JStr lines ++ entry :: rest) = Raise AttributeError.
Proof.
  intros Hne. induction lines as [|l lines IH]; simpl.
  - destruct entry; try reflexivity. now elim (Hne s).
  - destruct (PyStr.truthy (PyStr.strip l)); simpl; now rewrite IH.
Qed.

Lemma template_entries_filter (lines : list string) :
  template_entries (map JStr lines)
  = Ok (map (fun s => mkTemplate (PyStr.strip s))
            (filter (fun s => PyStr.truthy (PyStr.strip s)) lines)).
Proof.
  induction lines as [|l lines IH]; simpl; [reflexivity|].
  destruct (PyStr.truthy (PyStr.strip l)); simpl; now rewrite IH.
Qed.

(** X6. What [load_message_templates] does with each kind of file.  It
    raises [OSError] when the file cannot be opened, [ValueError] when it is
    not JSON, [TypeError] when the document is neither an array, an object
    nor a string, and [AttributeError] when an array has an item that is not
    a string after items that are.  When every item the document iterates
    over is a string it succeeds with the trimmed non-blank ones, so a JSON
    object loads, its keys being taken for the templates.  It raises in no
    other case than these four, and never one of the bot's own errors. *)
Theorem load_message_templates_failures (w : World) (path : string) (st : State) :
  let fails_with e :=
    load_message_templates w path st = (Raise e, record (ReadFile path) st) in
  let loads lines :=
    load_message_templates w path st
    = (Ok (map (fun s => mkTemplate (PyStr.strip s))
               (filter (fun s => PyStr.truthy (PyStr.strip s)) lines)),
       record (ReadFile path) st) in
  (files w path = NoSuchFile -> fails_with OSError)
  /\ (files w path = NotJson -> fails_with ValueError)
  /\ (forall v,
         files w path = Json v ->
         (forall items, v <> JArr items) -> (forall members, v <> JObj members) ->
         (forall s, v <> JStr s) ->
         fails_with TypeError)
  /\ (forall lines entry rest,
         files w path = Json (JArr (map JStr lines ++ entry :: rest)) ->
         (forall s, entry <> JStr s) ->
         fails_with AttributeError)
  /\ (forall v lines,
         files w path = Json v -> iterate v = Ok (map JStr lines) -> loads lines)
  /\ (forall members, files w path = Json (JObj members) -> loads (map fst members))
  /\ (forall e st',
         load_message_templates w path st = (Raise e, st') ->
         is_BirthdayBotError e = false
         /\ ((e = OSError /\ files w path = NoSuchFile)
             \/ (e = ValueError /\ files w path = NotJson)
             \/ (e = TypeError
                 /\ exists v, files w path = Json v /\ iterate v = Raise TypeError)
             \/ (e = AttributeError
                 /\ exists v items entry,
                     files w path = Json v /\ iterate v = Ok items
                     /\ In entry items /\ forall s, entry <> JStr s))).
Proof.
  intros fails_with loads. unfold fails_with, loads.
  unfold load_message_templates, bind, read_json, lift.
  split; [|split; [|split; [|split; [|split; [|split]]]]].
  - intros ->. reflexivity.
  - intros ->. reflexivity.
  - intros v -> Harr Hobj Hstr.
    destruct v; try reflexivity;
      [now elim (Hstr s) | now elim (Harr items) | now elim (Hobj members)].
  - intros lines entry rest -> Hne. simpl.
    now rewrite (template_entries_non_string lines entry rest Hne).
  - intros v lines -> Hi. rewrite Hi. now rewrite template_entries_filter.
  - intros members ->. simpl.
    rewrite <- (map_map fst JStr). now rewrite template_entries_filter.
  - intros e st'. destruct (files w path) as [| |v].
    + intros H. inversion H. split; [reflexivity | now left].
    + intros H. inversion H. split; [reflexivity | right; now left].
    + destruct (iterate v) as [items|x] eqn:Hi.
      * intros H. assert (Ht : template_entries items = Raise e) by congruence.
        destruct (template_entries_raises _ _ Ht) as (-> & entry & Hin & Hne).
        split; [reflexivity|]. right; right; right. split; [reflexivity|].
        now exists v, items, entry.
      * intros H. assert (x = e) by congruence. subst x.
        assert (e = TypeError)
          by (destruct v; simpl in Hi; try discriminate; congruence).
        subst e. split; [reflexivity|]. right; right; left. split; [reflexivity|].
        now exists v.
Qed.

Lemma load_message_templates_failures_witness :
  load_message_templates number_among_templates MESSAGES_PATH Sample.start
  = (Raise AttributeError, record (ReadFile MESSAGES_PATH) Sample.start).
Proof.
  exact (proj1 (proj2 (proj2 (proj2
           (load_message_templates_failures number_among_templates MESSAGES_PATH
              Sample.start))))
           ["Hi {name}"] (JInt 7) [] eq_refl ltac:(discriminate)).
Defined.

(** ** Mentions and braces *)

Lemma rstrip_of_stripped (x : string) : PyStr.strip x = x -> PyStr.rstrip x = x.
Proof.
  intros H. rewrite <- H at 1. unfold PyStr.strip.
  rewrite rstrip_idempotent. exact H.
Qed.

Lemma strip_at_prefixed (x : string) :
  PyStr.strip x = x -> PyStr.strip (String "@" x) = String "@" x.
Proof.
  intros H. unfold PyStr.strip.
  rewrite (lstrip_nonspace "@" x eq_refl), (rstrip_nonspace "@" x eq_refl).
  now rewrite (rstrip_of_stripped x H).
Qed.

Lemma strip_mention (p : Person) : PyStr.strip (mention p) = mention p.
Proof.
  unfold mention.
  destruct (PyStr.startswith "@" (PyStr.strip (nickname p))).
  - apply strip_idempotent.
  - apply strip_at_prefixed, strip_idempotent.
Qed.

(** X7. Taking a mention as a nickname changes nothing: the mention of a
    person whose nickname is somebody's mention is that mention, so [@] is
    never put in front twice. *)
Theorem mention_is_idempotent (p : Person) (n : string) (born : PyDate.date) :
  mention (mkPerson n (mention p) born) = mention p.
Proof.
  unfold mention at 1. cbn [nickname].
  now rewrite strip_mention, mention_starts_with_at.
Qed.

Lemma format_escaped (kwargs : string -> option string) (s : string) :
  PyStr.format_from kwargs PyStr.Text (escape_braces s) = Ok s.
Proof.
  induction s as [|c r IH]; [reflexivity|].
  cbn [escape_braces].
  destruct (Ascii.eqb c "{") eqn:Ho.
  - apply Ascii.eqb_eq in Ho. subst c. cbn [orb].
    change (map_ok (String "{") (PyStr.format_from kwargs PyStr.Text (escape_braces r))
            = Ok (String "{" r)).
    now rewrite IH.
  - destruct (Ascii.eqb c "}") eqn:Hc.
    + apply Ascii.eqb_eq in Hc. subst c. cbn [orb].
      change (map_ok (String "}") (PyStr.format_from kwargs PyStr.Text (escape_braces r))
              = Ok (String "}" r)).
      now rewrite IH.
    + cbn [orb PyStr.format_from PyStr.step]. rewrite Ho, Hc, IH. reflexivity.
Qed.

(** X8. A template in which every brace of a text is doubled renders to that
    text, with its braces single, for every person: doubling is how a
    template carries a literal brace. *)
Theorem render_escaped_text (s : string) (p : Person) :
  render (mkTemplate (escape_braces s)) p = Ok s.
Proof. apply format_escaped. Qed.

(** ** What each stage of a run leaves in the log *)

Lemma get_env_variable_inv (w : World) (variable : string) (st st' : State)
      (r : result string) :
  _get_env_variable w variable st = (r, st') ->
  st' = record (GetEnv variable) st
  /\ (forall value, r = Ok value -> configured_as w variable value)
  /\ (forall e, r = Raise e ->
                e = MissingEnvironmentVariableError variable
                /\ (environ w variable = None \/ environ w variable = Some EmptyString)).
Proof.
  unfold _get_env_variable, bind, os_getenv, configured_as.
  destruct (environ w variable) as [[|c v]|]; unfold raise, ret;
    intros H; inversion H; subst; (split; [reflexivity|]); split;
    intros x Hx; inversion Hx; subst; auto.
  split; [reflexivity | discriminate].
Qed.

Lemma get_env_variable_configured (w : World) (variable value : string) (st : State) :
  configured_as w variable value ->
  _get_env_variable w variable st = (Ok value, record (GetEnv variable) st).
Proof. intros [H Hne]. now apply get_env_variable_present. Qed.

Lemma select_loop_log (templates : list MessageTemplate) (people : list Person) :
  forall acc st r st',
    select_loop people templates acc st = (r, st') ->
    exists draws, log st' = log st ++ draws /\ forallb is_draw draws = true.
Proof.
  induction people as [|p rest IH]; intros acc st r st'; simpl.
  - unfold ret. intros H; inversion H; subst. exists []. now rewrite app_nil_r.
  - unfold bind at 1.
    destruct (random_choice templates st) as [[t|e] st1] eqn:Hc.
    + apply random_choice_inv in Hc. destruct Hc as [_ ->].
      unfold bind at 1, lift. destruct (render t p) as [m|e].
      * intros H. apply IH in H. destruct H as (draws & Hlog & Hd). simpl in Hlog.
        eexists (_ :: draws). rewrite Hlog, <- app_assoc. split; [reflexivity|].
        exact Hd.
      * intros H; inversion H; subst. simpl. eexists [_]. split; reflexivity.
    + apply random_choice_raises in Hc. destruct Hc as [_ ->].
      intros H; inversion H; subst. exists []. now rewrite app_nil_r.
Qed.

Lemma select_messages_log (people : list Person) (templates : list MessageTemplate)
      (st st' : State) (r : result (list string)) :
  select_messages people templates st = (r, st') ->
  exists draws, log st' = log st ++ draws /\ forallb is_draw draws = true.
Proof.
  destruct templates as [|t ts]; simpl.
  - unfold raise. intros H; inversion H; subst. exists []. now rewrite app_nil_r.
  - apply select_loop_log.
Qed.

Lemma select_loop_raises (templates : list MessageTemplate) (people : list Person) :
  templates <> [] ->
  forall acc st e st',
    select_loop people templates acc st = (Raise e, st') ->
    exists t p, In t templates /\ In p people /\ render t p = Raise e.
Proof.
  intros Hne. induction people as [|p rest IH]; intros acc st e st'; simpl.
  - unfold ret. discriminate.
  - unfold bind at 1.
    destruct (random_choice_nonempty templates st Hne) as (t & Hn & ->).
    unfold bind at 1, lift. destruct (render t p) as [m|x] eqn:Hr.
    + intros H. destruct (IH _ _ _ _ H) as (t' & p' & Ht & Hp & Hrender).
      exists t', p'. repeat split; [exact Ht | now right | exact Hrender].
    + intros H. inversion H; subst. exists t, p.
      repeat split; [now apply nth_error_In in Hn | now left | exact Hr].
Qed.

Lemma send_state (w : World) (token chat_id message : string) (st st' : State)
      (r : result unit) :
  send_telegram_message w token chat_id message st = (r, st') ->
  st' = record (Post (sendMessage token chat_id message)) st.
Proof.
  unfold send_telegram_message, bind, requests_post.
  destruct (transport w (log st) _) as [status body|]; simpl.
  - destruct (status >=? 400)%Z; unfold raise, ret; intros H; now inversion H.
  - intros H; now inversion H.
Qed.

Lemma send_all_log (w : World) (token chat_id : string) (messages : list string) :
  forall st r st',
    send_all w token chat_id messages st = (r, st') ->
    exists sent rest,
      messages = sent ++ rest
      /\ st' = mkState (rng st) (log st ++ posts token chat_id sent)
      /\ (r = Ok tt -> rest = []).
Proof.
  induction messages as [|m ms IH]; intros st r st'; simpl.
  - unfold ret. intros H; inversion H; subst. exists [], []. simpl.
    rewrite app_nil_r. destruct st'. now repeat split.
  - unfold bind.
    destruct (send_telegram_message w token chat_id m st) as [[u|e] st1] eqn:Hs;
      apply send_state in Hs; subst st1.
    + intros H. apply IH in H. destruct H as (sent & rest & -> & -> & Hok).
      exists (m :: sent), rest. simpl. rewrite <- app_assoc. now repeat split.
    + intros H; inversion H; subst. exists [m], ms. now repeat split.
Qed.

Lemma filter_post_posts (token chat_id : string) (messages : list string) :
  filter is_post (posts token chat_id messages) = posts token chat_id messages.
Proof.
  induction messages as [|m ms IH]; simpl; [reflexivity | now rewrite IH].
Qed.

Lemma filter_post_draws (draws : list event) :
  forallb is_draw draws = true -> filter is_post draws = [].
Proof.
  induction draws as [|d ds IH]; simpl; [reflexivity|].
  rewrite andb_true_iff. intros [Hd Hds]. destruct d; try discriminate. now apply IH.
Qed.

Lemma always_accepted (w : World) (token chat_id : string) (messages : list string) :
  (forall history r, accepts w history r = true) ->
  forall history, all_accepted w token chat_id history messages = true.
Proof.
  intros Hall. induction messages as [|m ms IH]; intros history; simpl; [reflexivity|].
  now rewrite Hall, IH.
Qed.

(** The run, once both files are loaded and somebody has a birthday. *)
Lemma run_with_celebrants (w : World) (today : option PyDate.date)
      (birthdays_path messages_path : string) (st st1 st2 : State)
      (people : list Person) (templates : list MessageTemplate) :
  load_birthdays w birthdays_path st = (Ok people, st1) ->
  load_message_templates w messages_path st1 = (Ok templates, st2) ->
  celebrants people (match today with Some d => d | None => clock w end) <> [] ->
  congratulate_today w today birthdays_path messages_path st
  = match _get_env_variable w "TELEGRAM_BOT_TOKEN" st2 with
    | (Raise e, s) => (Raise e, s)
    | (Ok token, st3) =>
        match _get_env_variable w "TELEGRAM_CHAT_ID" st3 with
        | (Raise e, s) => (Raise e, s)
        | (Ok chat_id, st4) =>
            match select_messages
                    (celebrants people (match today with Some d => d | None => clock w end))
                    templates st4 with
            | (Raise e, s) => (Raise e, s)
            | (Ok messages, st5) =>
                match send_all w token chat_id messages st5 with
                | (Raise e, s) => (Raise e, s)
                | (Ok _, s) => (Ok messages, s)
                end
            end
        end
    end.
Proof.
  intros Hp Ht Hc. unfold congratulate_today.
  unfold bind at 1. rewrite Hp. unfold bind at 1. rewrite Ht.
  destruct (celebrants people _) as [|c cs]; [congruence|].
  unfold bind at 1.
  destruct (_get_env_variable w "TELEGRAM_BOT_TOKEN" st2) as [[token|e] st3]; [|reflexivity].
  unfold bind at 1.
  destruct (_get_env_variable w "TELEGRAM_CHAT_ID" st3) as [[chat_id|e] st4]; [|reflexivity].
  unfold bind at 1.
  destruct (select_messages (c :: cs) templates st4) as [[messages|e] st5]; [|reflexivity].
  unfold bind at 1.
  destruct (send_all w token chat_id messages st5) as [[u|e] st6]; reflexivity.
Qed.

Lemma templates_failure_ends_run (w : World) (today : option PyDate.date)
      (birthdays_path messages_path : string) (st st1 st2 : State)
      (people : list Person) (e : exn) :
  load_birthdays w birthdays_path st = (Ok people, st1) ->
  load_message_templates w messages_path st1 = (Raise e, st2) ->
  congratulate_today w today birthdays_path messages_path st = (Raise e, st2).
Proof.
  intros Hp Ht. unfold congratulate_today.
  unfold bind at 1. rewrite Hp. unfold bind at 1. now rewrite Ht.
Qed.

Lemma run_without_celebrants (w : World) (today : option PyDate.date)
      (birthdays_path messages_path : string) (st st1 st2 : State)
      (people : list Person) (templates : list MessageTemplate) :
  load_birthdays w birthdays_path st = (Ok people, st1) ->
  load_message_templates w messages_path st1 = (Ok templates, st2) ->
  celebrants people (match today with Some d => d | None => clock w end) = [] ->
  congratulate_today w today birthdays_path messages_path st = (Ok [], st2).
Proof.
  intros Hp Ht Hc. unfold congratulate_today.
  unfold bind at 1. rewrite Hp. unfold bind at 1. rewrite Ht. now rewrite Hc.
Qed.



Lemma load_message_templates_foreign (w : World) (path : string) (st st' : State)
      (e : exn) :
  load_message_templates w path st = (Raise e, st') -> is_BirthdayBotError e = false.
Proof.
  unfold load_message_templates, bind, read_json, lift.
  destruct (files w path) as [| |v]; try (intros H; now inversion H).
  destruct (iterate v) as [items|x] eqn:Hi.
  - intros H. assert (Ht : template_entries items = Raise e) by congruence.
    now destruct (template_entries_raises _ _ Ht) as (-> & _).
  - intros H. assert (x = e) by congruence. subst x.
    destruct v; simpl in Hi; try discriminate; inversion Hi; reflexivity.
Qed.

(** ** Failures of the selection *)

(** X9. [select_messages] fails in two ways only: on an empty template list,
    with the bot's error and before any draw; or, the list being non-empty,
    with the error that [render] raises for some template of the list and
    some of the people.  The failure that [random.choice] has of its own, on
    an empty sequence, cannot occur. *)
Theorem select_messages_failures (people : list Person)
        (templates : list MessageTemplate) (st st' : State) (e : exn) :
  select_messages people templates st = (Raise e, st') ->
  (templates = [] /\ e = BirthdayBotError NoTemplates /\ st' = st)
  \/ (templates <> []
      /\ is_BirthdayBotError e = false
      /\ exists t p, In t templates /\ In p people /\ render t p = Raise e).
Proof.
  destruct templates as [|t ts]; simpl.
  - unfold raise. intros H; inversion H; subst. now left.
  - intros H. right. split; [discriminate|].
    split; [now apply select_loop_foreign in H|].
    apply (select_loop_raises (t :: ts) people) in H; [exact H | discriminate].
Qed.

Lemma select_messages_failures_witness :
  ([mkTemplate "{name}, you are {age}!"] = []
   /\ KeyError "age" = BirthdayBotError NoTemplates
   /\ mkState (fun k => S k) [Draw 1 0] = Sample.start)
  \/ ([mkTemplate "{name}, you are {age}!"] <> []
      /\ is_BirthdayBotError (KeyError "age") = false
      /\ exists t p, In t [mkTemplate "{name}, you are {age}!"]
                     /\ In p [Sample.ann] /\ render t p = Raise (KeyError "age")).
Proof.
  exact (select_messages_failures [Sample.ann] [mkTemplate "{name}, you are {age}!"]
           Sample.start _ _ eq_refl).
Defined.

(** ** Failures of a run *)

(** X10. The templates are loaded before anybody is filtered: when the
    people load and the templates file does not, the run raises the
    templates' error, whoever has or has not a birthday, having done nothing
    but open the two files. *)
Theorem broken_templates_fail_every_day (w : World) (today : option PyDate.date)
        (birthdays_path messages_path : string) (st st1 st2 : State)
        (people : list Person) (e : exn) :
  load_birthdays w birthdays_path st = (Ok people, st1) ->
  load_message_templates w messages_path st1 = (Raise e, st2) ->
  congratulate_today w today birthdays_path messages_path st = (Raise e, st2)
  /\ log st2 = log st ++ [ReadFile birthdays_path; ReadFile messages_path]
  /\ is_BirthdayBotError e = false.
Proof.
  intros Hp Ht. split; [now apply (templates_failure_ends_run _ _ _ _ _ _ _ _ _ Hp Ht)|].
  split.
  - apply load_birthdays_state in Hp. apply load_message_templates_state in Ht.
    subst st2 st1. simpl. now rewrite <- app_assoc.
  - now apply (load_message_templates_foreign _ _ _ _ _ Ht).
Qed.

Lemma broken_templates_fail_every_day_witness :
  congratulate_today number_among_templates (Some (PyDate.mkdate 2024 1 1))
    BIRTHDAYS_PATH MESSAGES_PATH Sample.start
  = (Raise AttributeError,
     mkState (fun k => k) [ReadFile BIRTHDAYS_PATH; ReadFile MESSAGES_PATH]).
Proof.
  exact (proj1 (broken_templates_fail_every_day number_among_templates
                  (Some (PyDate.mkdate 2024 1 1)) BIRTHDAYS_PATH MESSAGES_PATH
                  Sample.start _ _ _ _ eq_refl eq_refl)).
Defined.

(** X11. With a celebrant and the token configured, a chat identifier that is
    unset or empty ends the run in the configuration error that names
    [TELEGRAM_CHAT_ID], after both variables were read and before anything is
    drawn or posted. *)
Theorem missing_chat_id (w : World) (today : option PyDate.date)
        (birthdays_path messages_path : string) (st st1 st2 : State)
        (people : list Person) (templates : list MessageTemplate) (token : string) :
  load_birthdays w birthdays_path st = (Ok people, st1) ->
  load_message_templates w messages_path st1 = (Ok templates, st2) ->
  celebrants people (match today with Some d => d | None => clock w end) <> [] ->
  configured_as w "TELEGRAM_BOT_TOKEN" token ->
  environ w "TELEGRAM_CHAT_ID" = None \/ environ w "TELEGRAM_CHAT_ID" = Some EmptyString ->
  congratulate_today w today birthdays_path messages_path st
  = (Raise (MissingEnvironmentVariableError "TELEGRAM_CHAT_ID"),
     mkState (rng st2)
             (log st2 ++ [GetEnv "TELEGRAM_BOT_TOKEN"; GetEnv "TELEGRAM_CHAT_ID"])).
Proof.
  intros Hp Ht Hc Htok Hchat.
  rewrite (run_with_celebrants _ _ _ _ _ _ _ _ _ Hp Ht Hc).
  rewrite (get_env_variable_configured _ _ _ _ Htok).
  rewrite (get_env_variable_missing _ _ _ Hchat).
  unfold record. simpl. now rewrite <- app_assoc.
Qed.

Lemma missing_chat_id_witness :
  congratulate_today token_only None BIRTHDAYS_PATH MESSAGES_PATH Sample.start
  = (Raise (MissingEnvironmentVariableError "TELEGRAM_CHAT_ID"),
     mkState (fun k => k)
       [ReadFile BIRTHDAYS_PATH; ReadFile MESSAGES_PATH;
        GetEnv "TELEGRAM_BOT_TOKEN"; GetEnv "TELEGRAM_CHAT_ID"]).
Proof.
  refine (missing_chat_id token_only None BIRTHDAYS_PATH MESSAGES_PATH Sample.start _ _ _ _
            "T0KEN" eq_refl eq_refl _ _ (or_introl eq_refl)).
  - discriminate.
  - split; [reflexivity | discriminate].
Defined.

(** X12. When the selection fails, the run raises the same error and nothing
    is posted.  In particular, with a celebrant, both variables configured
    and no template at all, the run ends in the bot's "no templates" error
    with only the two files and the two variables read. *)
Theorem failed_selection_posts_nothing (w : World) (today : option PyDate.date)
        (birthdays_path messages_path : string) (st st1 st2 st5 : State)
        (people : list Person) (templates : list MessageTemplate)
        (token chat_id : string) (e : exn) :
  let reference := match today with Some d => d | None => clock w end in
  let st4 := record (GetEnv "TELEGRAM_CHAT_ID") (record (GetEnv "TELEGRAM_BOT_TOKEN") st2) in
  load_birthdays w birthdays_path st = (Ok people, st1) ->
  load_message_templates w messages_path st1 = (Ok templates, st2) ->
  celebrants people reference <> [] ->
  configured_as w "TELEGRAM_BOT_TOKEN" token ->
  configured_as w "TELEGRAM_CHAT_ID" chat_id ->
  select_messages (celebrants people reference) templates st4 = (Raise e, st5) ->
  congratulate_today w today birthdays_path messages_path st = (Raise e, st5)
  /\ filter is_post (log st5) = filter is_post (log st)
  /\ (templates = [] -> e = BirthdayBotError NoTemplates /\ st5 = st4).
Proof.
  intros reference st4 Hp Ht Hc Htok Hchat Hsel.
  split; [|split].
  - rewrite (run_with_celebrants _ _ _ _ _ _ _ _ _ Hp Ht Hc).
    rewrite (get_env_variable_configured _ _ _ _ Htok).
    rewrite (get_env_variable_configured _ _ _ _ Hchat).
    fold reference. fold st4. now rewrite Hsel.
  - destruct (select_messages_log _ _ _ _ _ Hsel) as (draws & Hlog & Hd).
    apply load_birthdays_state in Hp. apply load_message_templates_state in Ht.
    rewrite Hlog. subst st4 st2 st1. simpl.
    rewrite !filter_app, (filter_post_draws _ Hd). simpl. now rewrite !app_nil_r.
  - intros ->. simpl in Hsel. unfold raise in Hsel. inversion Hsel. now split.
Qed.

Lemma failed_selection_posts_nothing_witness :
  congratulate_today blank_templates None BIRTHDAYS_PATH MESSAGES_PATH Sample.start
  = (Raise (BirthdayBotError NoTemplates),
     mkState (fun k => k)
       [ReadFile BIRTHDAYS_PATH; ReadFile MESSAGES_PATH;
        GetEnv "TELEGRAM_BOT_TOKEN"; GetEnv "TELEGRAM_CHAT_ID"]).
Proof.
  refine (proj1 (failed_selection_posts_nothing blank_templates None BIRTHDAYS_PATH MESSAGES_PATH
                   Sample.start _ _ _ _ _ "T0KEN" "-1001" _
                   eq_refl eq_refl _ _ _ eq_refl)).
  - discriminate.
  - split; [reflexivity | discriminate].
  - split; [reflexivity | discriminate].
Defined.

(** ** Runs that succeed *)

Lemma select_messages_sound (people : list Person) (templates : list MessageTemplate)
      (st st' : State) (messages : list string) :
  select_messages people templates st = (Ok messages, st') ->
  Forall2 (rendering_of templates) people messages.
Proof.
  destruct templates as [|t ts]; [discriminate|]. simpl. intros H.
  apply select_loop_sound in H. destruct H as (msgs & -> & Hall). exact Hall.
Qed.

Lemma run_ok_inv (w : World) (today : option PyDate.date)
      (birthdays_path messages_path : string) (st st1 st2 st' : State)
      (people : list Person) (templates : list MessageTemplate)
      (messages : list string) :
  let reference := match today with Some d => d | None => clock w end in
  load_birthdays w birthdays_path st = (Ok people, st1) ->
  load_message_templates w messages_path st1 = (Ok templates, st2) ->
  congratulate_today w today birthdays_path messages_path st = (Ok messages, st') ->
  Forall2 (rendering_of templates) (celebrants people reference) messages
  /\ ((celebrants people reference = [] /\ st' = st2)
      \/ exists token chat_id st5,
          configured_as w "TELEGRAM_BOT_TOKEN" token
          /\ configured_as w "TELEGRAM_CHAT_ID" chat_id
          /\ select_messages (celebrants people reference) templates
               (record (GetEnv "TELEGRAM_CHAT_ID") (record (GetEnv "TELEGRAM_BOT_TOKEN") st2))
             = (Ok messages, st5)
          /\ st' = mkState (rng st5) (log st5 ++ posts token chat_id messages)).
Proof.
  intros reference Hp Ht Hrun.
  destruct (celebrants people reference) as [|c cs] eqn:Hc.
  - rewrite (run_without_celebrants _ _ _ _ _ _ _ _ _ Hp Ht Hc) in Hrun.
    inversion Hrun; subst. split; [constructor | now left].
  - assert (Hne : celebrants people reference <> []) by (rewrite Hc; discriminate).
    rewrite (run_with_celebrants _ _ _ _ _ _ _ _ _ Hp Ht Hne) in Hrun.
    fold reference in Hrun. rewrite Hc in Hrun.
    destruct (_get_env_variable w "TELEGRAM_BOT_TOKEN" st2) as [[token|e] st3] eqn:Htok;
      [|discriminate].
    destruct (get_env_variable_inv _ _ _ _ _ Htok) as (-> & Hct & _).
    destruct (_get_env_variable w "TELEGRAM_CHAT_ID" _) as [[chat_id|e] st4] eqn:Hchat;
      [|discriminate].
    destruct (get_env_variable_inv _ _ _ _ _ Hchat) as (-> & Hcc & _).
    destruct (select_messages (c :: cs) templates _) as [[msgs|e] st5] eqn:Hsel;
      [|discriminate].
    destruct (send_all w token chat_id msgs st5) as [[u|e] st6] eqn:Hsend;
      [|discriminate].
    inversion Hrun; subst msgs st6.
    split; [now apply select_messages_sound in Hsel|].
    right. exists token, chat_id, st5.
    split; [now apply Hct|]. split; [now apply Hcc|]. split; [reflexivity|].
    destruct (send_all_log _ _ _ _ _ _ _ Hsend) as (sent & rest & Hm & Hst & Hrest).
    destruct u. rewrite (Hrest eq_refl), app_nil_r in Hm. now subst sent.
Qed.

(** X13. A run that returns has posted exactly what it returns: the list is
    one rendering per celebrant, in celebrant order, and the posts the run
    added to the log are the posts of these messages, in order, to the
    configured chat with the configured token; the list is empty exactly when
    there is no celebrant. *)
Theorem returned_messages_are_the_posted_ones
        (w : World) (today : option PyDate.date)
        (birthdays_path messages_path : string) (st st' : State)
        (messages : list string) :
  congratulate_today w today birthdays_path messages_path st = (Ok messages, st') ->
  exists people templates st1 st2,
    load_birthdays w birthdays_path st = (Ok people, st1)
    /\ load_message_templates w messages_path st1 = (Ok templates, st2)
    /\ Forall2 (rendering_of templates)
               (celebrants people (match today with Some d => d | None => clock w end))
               messages
    /\ ((messages = [] /\ filter is_post (log st') = filter is_post (log st))
        \/ exists token chat_id,
            configured_as w "TELEGRAM_BOT_TOKEN" token
            /\ configured_as w "TELEGRAM_CHAT_ID" chat_id
            /\ filter is_post (log st')
               = filter is_post (log st) ++ posts token chat_id messages).
Proof.
  intros Hrun.
  destruct (load_birthdays w birthdays_path st) as [[people|e] st1] eqn:Hp.
  2:{ rewrite (load_failure_ends_run _ today _ messages_path _ _ _ Hp) in Hrun.
      discriminate. }
  destruct (load_message_templates w messages_path st1) as [[templates|e] st2] eqn:Ht.
  2:{ rewrite (templates_failure_ends_run _ today _ _ _ _ _ _ _ Hp Ht) in Hrun.
      discriminate. }
  exists people, templates, st1, st2. split; [reflexivity|]. split; [exact Ht|].
  destruct (run_ok_inv _ _ _ _ _ _ _ _ _ _ _ Hp Ht Hrun) as [Hall Hcases].
  split; [exact Hall|].
  pose proof (load_birthdays_state _ _ _ _ _ Hp) as H1.
  pose proof (load_message_templates_state _ _ _ _ _ Ht) as H2.
  destruct Hcases as [[Hc ->] | (token & chat_id & st5 & Htok & Hchat & Hsel & ->)].
  - left. rewrite Hc in Hall. inversion Hall. split; [reflexivity|].
    subst st2 st1. simpl. rewrite !filter_app. simpl. now rewrite !app_nil_r.
  - right. exists token, chat_id. split; [exact Htok|]. split; [exact Hchat|].
    destruct (select_messages_log _ _ _ _ _ Hsel) as (draws & Hlog & Hd).
    simpl. rewrite Hlog. subst st2 st1. simpl.
    rewrite !filter_app, (filter_post_draws _ Hd), filter_post_posts. simpl.
    now rewrite !app_nil_r.
Qed.

Lemma returned_messages_are_the_posted_ones_witness :
  exists people templates st1 st2,
    load_birthdays Sample.happy BIRTHDAYS_PATH Sample.start = (Ok people, st1)
    /\ load_message_templates Sample.happy MESSAGES_PATH st1 = (Ok templates, st2)
    /\ Forall2 (rendering_of templates) (celebrants people (clock Sample.happy))
               ["Happy birthday, @ann!"; "Hi Bob (@bob)"; "Happy birthday, @cid!"]
    /\ ((["Happy birthday, @ann!"; "Hi Bob (@bob)"; "Happy birthday, @cid!"] = []
         /\ filter is_post
              (log (snd (congratulate_today Sample.happy None BIRTHDAYS_PATH
                           MESSAGES_PATH Sample.start)))
            = filter is_post (log Sample.start))
        \/ exists token chat_id,
            configured_as Sample.happy "TELEGRAM_BOT_TOKEN" token
            /\ configured_as Sample.happy "TELEGRAM_CHAT_ID" chat_id
            /\ filter is_post
                 (log (snd (congratulate_today Sample.happy None BIRTHDAYS_PATH
                              MESSAGES_PATH Sample.start)))
               = filter is_post (log Sample.start)
                 ++ posts token chat_id
                      ["Happy birthday, @ann!"; "Hi Bob (@bob)"; "Happy birthday, @cid!"]).
Proof.
  exact (returned_messages_are_the_posted_ones Sample.happy None BIRTHDAYS_PATH
           MESSAGES_PATH Sample.start _ _ eq_refl).
Defined.

(** X14. With both files loaded, both variables configured, a non-empty
    template list whose templates all render for the celebrants, and a
    transport that accepts every post, the run returns: one message per
    celebrant, each posted once, in celebrant order. *)
Theorem run_succeeds (w : World) (today : option PyDate.date)
        (birthdays_path messages_path : string) (st st1 st2 : State)
        (people : list Person) (templates : list MessageTemplate)
        (token chat_id : string) :
  let reference := match today with Some d => d | None => clock w end in
  load_birthdays w birthdays_path st = (Ok people, st1) ->
  load_message_templates w messages_path st1 = (Ok templates, st2) ->
  configured_as w "TELEGRAM_BOT_TOKEN" token ->
  configured_as w "TELEGRAM_CHAT_ID" chat_id ->
  templates <> [] ->
  (forall t p, In t templates -> In p (celebrants people reference) ->
               exists m, render t p = Ok m) ->
  (forall history r, accepts w history r = true) ->
  exists messages st',
    congratulate_today w today birthdays_path messages_path st = (Ok messages, st')
    /\ List.length messages = List.length (celebrants people reference)
    /\ Forall2 (rendering_of templates) (celebrants people reference) messages
    /\ filter is_post (log st') = filter is_post (log st) ++ posts token chat_id messages.
Proof.
  intros reference Hp Ht Htok Hchat Hne Hrender Haccept.
  assert (Hsome : exists messages st',
             congratulate_today w today birthdays_path messages_path st
             = (Ok messages, st')
             /\ List.length messages = List.length (celebrants people reference)).
  { destruct (celebrants people reference) as [|c cs] eqn:Hc.
    - exists [], st2. split; [|reflexivity].
      now apply (run_without_celebrants _ _ _ _ _ _ _ _ _ Hp Ht).
    - assert (Hcne : celebrants people reference <> []) by (rewrite Hc; discriminate).
      rewrite (run_with_celebrants _ _ _ _ _ _ _ _ _ Hp Ht Hcne).
      rewrite (get_env_variable_configured _ _ _ _ Htok).
      rewrite (get_env_variable_configured _ _ _ _ Hchat).
      fold reference. rewrite Hc.
      destruct (select_loop_total templates (c :: cs) Hne Hrender []
                  (record (GetEnv "TELEGRAM_CHAT_ID")
                          (record (GetEnv "TELEGRAM_BOT_TOKEN") st2)))
        as (msgs & st5 & Hsel & Hlen & _).
      assert (Hsel' : select_messages (c :: cs) templates
                        (record (GetEnv "TELEGRAM_CHAT_ID")
                                (record (GetEnv "TELEGRAM_BOT_TOKEN") st2))
                      = (Ok msgs, st5))
        by (destruct templates; [congruence | exact Hsel]).
      rewrite Hsel'.
      rewrite (send_all_delivered w token chat_id msgs st5
                 (always_accepted w token chat_id msgs Haccept (log st5))).
      exists msgs. eexists. split; [reflexivity | exact Hlen]. }
  destruct Hsome as (messages & st' & Hrun & Hlen).
  exists messages, st'. split; [exact Hrun|]. split; [exact Hlen|].
  destruct (run_ok_inv _ _ _ _ _ _ _ _ _ _ _ Hp Ht Hrun) as [Hall Hcases].
  split; [exact Hall|].
  pose proof (load_birthdays_state _ _ _ _ _ Hp) as H1.
  pose proof (load_message_templates_state _ _ _ _ _ Ht) as H2.
  destruct Hcases as [[Hc ->] | (token' & chat' & st5 & Htok' & Hchat' & Hsel & ->)].
  - fold reference in Hc. rewrite Hc in Hlen. destruct messages; [|discriminate].
    subst st2 st1. simpl. rewrite !filter_app. simpl. now rewrite !app_nil_r.
  - assert (token' = token) by (destruct Htok, Htok'; congruence).
    assert (chat' = chat_id) by (destruct Hchat, Hchat'; congruence).
    subst token' chat'.
    destruct (select_messages_log _ _ _ _ _ Hsel) as (draws & Hlog & Hd).
    simpl. rewrite Hlog. subst st2 st1. simpl.
    rewrite !filter_app, (filter_post_draws _ Hd), filter_post_posts. simpl.
    now rewrite !app_nil_r.
Qed.

Lemma run_succeeds_witness :
  exists messages st',
    congratulate_today Sample.happy None BIRTHDAYS_PATH MESSAGES_PATH Sample.start
    = (Ok messages, st')
    /\ List.length messages = 3
    /\ Forall2 (rendering_of [mkTemplate "Happy birthday, {mention}!";
                              mkTemplate "Hi {name} ({mention})"])
               [Sample.ann; Sample.bob; Sample.cid] messages
    /\ filter is_post (log st') = posts "T0KEN" "-1001" messages.
Proof.
  refine (run_succeeds Sample.happy None BIRTHDAYS_PATH MESSAGES_PATH Sample.start
            _ _ _ _ "T0KEN" "-1001" eq_refl eq_refl _ _ _ _ _).
  - split; [reflexivity | discriminate].
  - split; [reflexivity | discriminate].
  - discriminate.
  - intros t p [<- | [<- | []]] [<- | [<- | [<- | []]]]; eexists; reflexivity.
  - reflexivity.
Defined.

(** ** The order of the effects of a run *)

Ltac shape_side :=
  repeat split; simpl; try reflexivity; try congruence;
  try (intros [? | ?]; congruence).

(** X15. Whatever a run ends in, the effects it added to the log come in one
    order: the birthdays file is opened, then the templates file, then the
    token is read, then the chat identifier, then templates are drawn, then
    messages are posted.  Nothing is read from the configuration before both
    files were opened, nothing is drawn or posted before both variables were
    read, and every post goes to the configured chat with the configured
    token. *)
Theorem run_log_shape (w : World) (today : option PyDate.date)
        (birthdays_path messages_path : string) (st st' : State)
        (r : result (list string)) :
  congratulate_today w today birthdays_path messages_path st = (r, st') ->
  exists i j draws token chat_id sent,
    log st' = log st
              ++ firstn i [ReadFile birthdays_path; ReadFile messages_path]
              ++ firstn j [GetEnv "TELEGRAM_BOT_TOKEN"; GetEnv "TELEGRAM_CHAT_ID"]
              ++ draws ++ posts token chat_id sent
    /\ forallb is_draw draws = true
    /\ (sent <> [] ->
        configured_as w "TELEGRAM_BOT_TOKEN" token
        /\ configured_as w "TELEGRAM_CHAT_ID" chat_id)
    /\ (j <> 0 -> i = 2)
    /\ (draws <> [] \/ sent <> [] -> j = 2).
Proof.
  intros Hrun.
  destruct (load_birthdays w birthdays_path st) as [[people|e] st1] eqn:Hp.
  2:{ rewrite (load_failure_ends_run _ today _ messages_path _ _ _ Hp) in Hrun.
      inversion Hrun; subst. apply load_birthdays_state in Hp. subst st'.
      exists 1, 0, [], EmptyString, EmptyString, []. shape_side. }
  pose proof (load_birthdays_state _ _ _ _ _ Hp) as H1.
  destruct (load_message_templates w messages_path st1) as [[templates|e] st2] eqn:Ht.
  2:{ rewrite (templates_failure_ends_run _ today _ _ _ _ _ _ _ Hp Ht) in Hrun.
      inversion Hrun; subst. apply load_message_templates_state in Ht. subst st'.
      exists 2, 0, [], EmptyString, EmptyString, []. simpl.
      rewrite <- app_assoc. shape_side. }
  pose proof (load_message_templates_state _ _ _ _ _ Ht) as H2.
  destruct (celebrants people (match today with Some d => d | None => clock w end))
    as [|c cs] eqn:Hc.
  { rewrite (run_without_celebrants _ _ _ _ _ _ _ _ _ Hp Ht Hc) in Hrun.
    inversion Hrun; subst.
    exists 2, 0, [], EmptyString, EmptyString, []. simpl.
    rewrite <- app_assoc. shape_side. }
  assert (Hne : celebrants people (match today with Some d => d | None => clock w end)
                <> []) by (rewrite Hc; discriminate).
  rewrite (run_with_celebrants _ _ _ _ _ _ _ _ _ Hp Ht Hne) in Hrun.
  destruct (_get_env_variable w "TELEGRAM_BOT_TOKEN" st2) as [[token|e] st3] eqn:Htok;
    destruct (get_env_variable_inv _ _ _ _ _ Htok) as (-> & Hct & _).
  2:{ inversion Hrun; subst.
      exists 2, 1, [], EmptyString, EmptyString, []. simpl.
      rewrite <- !app_assoc. shape_side. }
  destruct (_get_env_variable w "TELEGRAM_CHAT_ID" _) as [[chat_id|e] st4] eqn:Hchat;
    destruct (get_env_variable_inv _ _ _ _ _ Hchat) as (-> & Hcc & _).
  2:{ inversion Hrun; subst.
      exists 2, 2, [], EmptyString, EmptyString, []. simpl.
      rewrite <- !app_assoc. shape_side. }
  destruct (select_messages _ templates _) as [[messages|e] st5] eqn:Hsel;
    destruct (select_messages_log _ _ _ _ _ Hsel) as (draws & Hlog & Hd).
  2:{ inversion Hrun; subst.
      exists 2, 2, draws, EmptyString, EmptyString, []. rewrite Hlog. simpl.
      rewrite <- !app_assoc. shape_side. now rewrite app_nil_r. }
  destruct (send_all w token chat_id messages st5) as [[u|e] st6] eqn:Hsend;
    destruct (send_all_log _ _ _ _ _ _ _ Hsend) as (sent & rest & Hm & Hst & _);
    destruct (Hct _ eq_refl) as [? ?]; destruct (Hcc _ eq_refl) as [? ?];
    inversion Hrun; subst;
    exists 2, 2, draws, token, chat_id, sent; simpl; rewrite Hlog; simpl;
    rewrite <- !app_assoc; shape_side; assumption.
Qed.

Lemma run_log_shape_witness :
  exists i j draws token chat_id sent,
    [ReadFile BIRTHDAYS_PATH; ReadFile MESSAGES_PATH;
     GetEnv "TELEGRAM_BOT_TOKEN"; GetEnv "TELEGRAM_CHAT_ID";
     Draw 2 0; Draw 2 1; Draw 2 0;
     Post (sendMessage "T0KEN" "-1001" "Happy birthday, @ann!");
     Post (sendMessage "T0KEN" "-1001" "Hi Bob (@bob)")]
    = log Sample.start
      ++ firstn i [ReadFile BIRTHDAYS_PATH; ReadFile MESSAGES_PATH]
      ++ firstn j [GetEnv "TELEGRAM_BOT_TOKEN"; GetEnv "TELEGRAM_CHAT_ID"]
      ++ draws ++ posts token chat_id sent
    /\ forallb is_draw draws = true
    /\ (sent <> [] ->
        configured_as Sample.flaky "TELEGRAM_BOT_TOKEN" token
        /\ configured_as Sample.flaky "TELEGRAM_CHAT_ID" chat_id)
    /\ (j <> 0 -> i = 2)
    /\ (draws <> [] \/ sent <> [] -> j = 2).
Proof.
  exact (run_log_shape Sample.flaky None BIRTHDAYS_PATH MESSAGES_PATH Sample.start
           _ _ eq_refl).
Defined.

(** ** What the program tells its user *)

(** X16. When both files load, the program prints "No birthdays today." and
    nothing else exactly when nobody is born on the day of the clock. *)
Theorem no_birthdays_message (w : World) (st st1 st2 : State)
        (people : list Person) (templates : list MessageTemplate) :
  load_birthdays w BIRTHDAYS_PATH st = (Ok people, st1) ->
  load_message_templates w MESSAGES_PATH st1 = (Ok templates, st2) ->
  fst (main w st) = Returned ["No birthdays today."]
  <-> celebrants people (clock w) = [].
Proof.
  intros Hp Ht. split.
  - intros Hmain. unfold main in Hmain.
    destruct (congratulate_today w None BIRTHDAYS_PATH MESSAGES_PATH st)
      as [[messages|e] st'] eqn:Hrun.
    + destruct (run_ok_inv _ _ _ _ _ _ _ _ _ _ _ Hp Ht Hrun) as [Hall _].
      destruct messages as [|m ms]; [now inversion Hall|].
      simpl in Hmain. discriminate.
    + destruct (is_BirthdayBotError e); discriminate.
  - intros Hc. unfold main.
    now rewrite (run_without_celebrants w None _ _ _ _ _ _ _ Hp Ht Hc).
Qed.

Lemma no_birthdays_message_witness :
  fst (main Sample.quiet Sample.start) = Returned ["No birthdays today."]
  <-> celebrants [Sample.dan] (clock Sample.quiet) = [].
Proof.
  exact (no_birthdays_message Sample.quiet Sample.start _ _ [Sample.dan] _
           eq_refl eq_refl).
Defined.



